(** * axicontraves: the batch wrapper and its aggregates

    A shallow embedding of [axicontraves/__init__.py]: the dataclasses
    [ProviderConfig] and [BatchRequestResult], the class [BatchProcessor]
    with its closure [update_progress], and the derived-rate properties.

    The wrapper hands the whole dispatch to a compiled extension module
    ([from .axicontraves import process_requests_multi, RequestMetrics]).
    The wrapper is embedded over an arbitrary engine; the engine itself is
    modelled separately, from the specification, in [Module Native].

    - Python [int] is [Z]; Python [float] is idealised as an exact rational
      [Q] (rounding is not modelled);
    - [Dict[str, _]] is [gmap string _];
    - a raised exception is the [Raise] branch of [PyResult];
    - [time.time()] is a stream of readings, indexed by the number of
      readings taken so far. *)

From Stdlib Require Import ZArith QArith Lia.
From stdpp Require Import base option list gmap strings fin_maps.

Local Open Scope Z_scope.
Local Open Scope string_scope.

(** ** Python preliminaries *)

Inductive PyExn : Type :=
| IndexError
| ZeroDivisionError
| ConfigurationError.

Inductive PyResult (A : Type) : Type :=
| Return (a : A)
| Raise (e : PyExn).

Arguments Return {A} a.
Arguments Raise {A} e.

#[global] Instance py_ret : MRet PyResult := fun A a => Return a.

#[global] Instance py_bind : MBind PyResult := fun A B k c =>
  match c with
  | Return a => k a
  | Raise e => Raise e
  end.

#[global] Instance PyExn_eq_dec : EqDecision PyExn.
Proof. solve_decision. Defined.

#[global] Instance PyResult_eq_dec {A : Type} `{!EqDecision A} : EqDecision (PyResult A).
Proof. solve_decision. Defined.

(** [l[i]] for a non-negative literal index. *)
Definition py_getitem {A : Type} (l : list A) (i : nat) : PyResult A :=
  match l !! i with
  | Some a => Return a
  | None => Raise IndexError
  end.

(** [sum(f(m) for m in l)]: a left fold from the integer 0. *)
Definition py_sum {A : Type} (f : A -> Z) (l : list A) : Z :=
  fold_left (fun acc a => acc + f a) l 0.

(** [len(l)] as a Python integer. *)
Definition py_len {A : Type} (l : list A) : Z := Z.of_nat (length l).

(** [str(x)] for an [Optional[str]], as an f-string placeholder renders it. *)
Definition py_str (o : option string) : string :=
  match o with
  | Some s => s
  | None => "None"
  end.

(** [x / y] on floats: raises when the divisor is zero. *)
Definition py_truediv (x y : Q) : PyResult Q :=
  if Qeq_bool y 0 then Raise ZeroDivisionError else Return (x / y)%Q.

(** [y > 0] on floats. *)
Definition py_gt0 (y : Q) : bool :=
  match (0 ?= y)%Q with
  | Lt => true
  | _ => false
  end.

(** ** Data model *)

(** The values of a provider's option mapping ([Dict[str, Any]]). *)
Inductive Any : Type :=
| AnyStr (s : string)
| AnyInt (z : Z)
| AnyFloat (q : Q)
| AnyNone.

Definition Message : Type := gmap string string.
Definition Request : Type := list Message.

Record ProviderConfig : Type := {
  name : string;
  api_key : string;
  config : gmap string Any;
  base_url : option string;
  tokens_per_minute : option Z;
  test_mode : bool
}.

(** The tuple [(p.name, p.api_key, p.base_url, p.config)] the engine receives. *)
Definition ProviderTuple : Type := (string * string * option string * gmap string Any)%type.

Module RequestMetrics.

(** Modelled from the spec: the class [RequestMetrics] is declared in the
    compiled extension module, which is not among the sources. Its
    attributes are the ones the wrapper and the tests read
    ([provider_name], [prompt_tokens], [completion_tokens], [total_tokens],
    [request_bytes], [response_bytes], [request_time]); the spec describes
    it as one immutable record per completed (or failed) request. *)
Record t : Type := mk {
  provider_name : string;
  prompt_tokens : Z;
  completion_tokens : Z;
  total_tokens : Z;
  request_bytes : Z;
  response_bytes : Z;
  request_time : Q
}.

End RequestMetrics.

Module BatchRequestResult.

(* The record is nested through [gmap]; no induction scheme over the nesting
   is needed, the mapping is one level deep. *)
Set Warnings "-register-all".

Inductive t : Type := mk {
  total_requests : Z;
  total_tokens : Z;
  prompt_tokens : Z;
  completion_tokens : Z;
  total_time : Q;
  metrics : list RequestMetrics.t;
  total_request_bytes : Z;
  total_response_bytes : Z;
  provider_metrics : gmap string t
}.

Set Warnings "+register-all".

Definition requests_per_second (self : t) : PyResult Q :=
  if py_gt0 (total_time self)
  then py_truediv (inject_Z (total_requests self)) (total_time self)
  else Return 0%Q.

Definition tokens_per_second (self : t) : PyResult Q :=
  if py_gt0 (total_time self)
  then py_truediv (inject_Z (total_tokens self)) (total_time self)
  else Return 0%Q.

Definition prompt_tokens_per_second (self : t) : PyResult Q :=
  if py_gt0 (total_time self)
  then py_truediv (inject_Z (prompt_tokens self)) (total_time self)
  else Return 0%Q.

Definition completion_tokens_per_second (self : t) : PyResult Q :=
  if py_gt0 (total_time self)
  then py_truediv (inject_Z (completion_tokens self)) (total_time self)
  else Return 0%Q.

Definition uplink_mbps (self : t) : PyResult Q :=
  if py_gt0 (total_time self)
  then py_truediv (inject_Z (total_request_bytes self * 8))
                  (total_time self * inject_Z 1000000)%Q
  else Return 0%Q.

Definition downlink_mbps (self : t) : PyResult Q :=
  if py_gt0 (total_time self)
  then py_truediv (inject_Z (total_response_bytes self * 8))
                  (total_time self * inject_Z 1000000)%Q
  else Return 0%Q.

End BatchRequestResult.

(** ** The engine, as the wrapper sees it *)

(** One invocation of the closure [update_progress] by the engine: its seven
    positional arguments. *)
Record ProgressCall : Type := {
  completed : Z;
  total : Z;
  new_prompt_tokens : Z;
  new_completion_tokens : Z;
  new_request_bytes : Z;
  new_response_bytes : Z;
  thread_count : Z
}.

(** What one call of [process_requests_multi] does to the wrapper: the calls
    of the progress closure it makes, in order, and then the list of metrics
    it returns or the exception it raises. The closure returns [None] and
    has no way to influence the engine. *)
Record EngineRun : Type := {
  progress_calls : list ProgressCall;
  returned : PyResult (list RequestMetrics.t)
}.

(** The arguments of [process_requests_multi] other than the closure. *)
Record EngineArgs : Type := {
  arg_providers : list ProviderTuple;
  arg_requests : list Request;
  arg_test_mode : bool;
  arg_tokens_per_minute : option Z
}.

Definition Engine : Type := EngineArgs -> EngineRun.

(** ** BatchProcessor *)

Module BatchProcessor.

(** [Union[ProviderConfig, List[ProviderConfig]]]. *)
Inductive ProvidersArg : Type :=
| Single (p : ProviderConfig)
| Many (l : list ProviderConfig).

(** The instance: [_progress_callback] is kept as the flag "a callback was
    given"; what the callback is called with is recorded in [Locals]. *)
Record t : Type := {
  providers : list ProviderConfig;
  _progress_callback : bool
}.

Definition __init__ (providers : ProvidersArg) (progress_callback : bool) : t :=
  {| providers := match providers with
                  | Single p => [p]
                  | Many l => l
                  end;
     _progress_callback := progress_callback |}.

(** The variables of [process_batch] that [update_progress] rebinds
    ([nonlocal]), the number of clock readings taken, and the calls made to
    the user's callback. The console progress bar is not modelled. *)
Record Locals : Type := {
  total_tokens : Z;
  prompt_tokens : Z;
  completion_tokens : Z;
  total_request_bytes : Z;
  total_response_bytes : Z;
  clock_reads : nat;
  callback_log : list (Z * Z)
}.

(** The state after [start_time = time.time()] and the five [= 0]. *)
Definition initial_locals : Locals :=
  {| total_tokens := 0;
     prompt_tokens := 0;
     completion_tokens := 0;
     total_request_bytes := 0;
     total_response_bytes := 0;
     clock_reads := 1;
     callback_log := [] |}.

Definition update_progress (self : t) (st : Locals) (c : ProgressCall) : Locals :=
  let prompt_tokens' := prompt_tokens st + new_prompt_tokens c in
  let completion_tokens' := completion_tokens st + new_completion_tokens c in
  {| prompt_tokens := prompt_tokens';
     completion_tokens := completion_tokens';
     total_tokens := prompt_tokens' + completion_tokens';
     total_request_bytes := total_request_bytes st + new_request_bytes c;
     total_response_bytes := total_response_bytes st + new_response_bytes c;
     clock_reads := S (clock_reads st);
     callback_log :=
       if _progress_callback self
       then callback_log st ++ [(completed c, total c)]
       else callback_log st |}.

(** [f"{provider.name}:{provider.base_url}"]. *)
Definition provider_key (provider : ProviderConfig) : string :=
  name provider +:+ ":" +:+ py_str (base_url provider).

(** [(p.name, p.api_key, p.base_url, p.config)]. *)
Definition provider_tuple (p : ProviderConfig) : ProviderTuple :=
  (name p, api_key p, base_url p, config p).

(** The arguments of the call of [process_requests_multi]; evaluating
    [self.providers[0]] raises on an empty list, before the engine runs. *)
Definition engine_args (self : t) (requests : list Request) : PyResult EngineArgs :=
  let provider_configs := provider_tuple <$> providers self in
  first ← py_getitem (providers self) 0;
  mret {| arg_providers := provider_configs;
          arg_requests := requests;
          arg_test_mode := test_mode first;
          arg_tokens_per_minute := tokens_per_minute first |}.

Section process_batch.

(** [time.time()]: the k-th reading taken during the call. *)
Variable time_time : nat -> Q.

(** [process_requests_multi]. *)
Variable process_requests_multi : Engine.

(** The sub-aggregate built for one provider key from its metrics. *)
Definition provider_result (provider_metrics : list RequestMetrics.t) (now start_time : Q)
  : BatchRequestResult.t :=
  BatchRequestResult.mk
    (py_len provider_metrics)
    (py_sum (fun m => RequestMetrics.prompt_tokens m + RequestMetrics.completion_tokens m)
            provider_metrics)
    (py_sum RequestMetrics.prompt_tokens provider_metrics)
    (py_sum RequestMetrics.completion_tokens provider_metrics)
    (now - start_time)%Q
    provider_metrics
    (py_sum RequestMetrics.request_bytes provider_metrics)
    (py_sum RequestMetrics.response_bytes provider_metrics)
    ∅.

(** [[m for m in metrics if m.provider_name == provider_key]]. *)
Definition metrics_of (provider_key : string) (metrics : list RequestMetrics.t)
  : list RequestMetrics.t :=
  filter (fun m => RequestMetrics.provider_name m = provider_key) metrics.

(** One iteration of [for provider in self.providers]; the state is the
    dictionary [provider_results] and the number of clock readings. *)
Definition provider_step (metrics : list RequestMetrics.t) (start_time : Q)
    (acc : gmap string BatchRequestResult.t * nat) (provider : ProviderConfig)
  : gmap string BatchRequestResult.t * nat :=
  let '(provider_results, reads) := acc in
  let provider_key := provider_key provider in
  let provider_metrics := metrics_of provider_key metrics in
  match provider_metrics with
  | [] => (provider_results, reads)
  | _ :: _ =>
      (<[provider_key := provider_result provider_metrics (time_time reads) start_time]>
         provider_results,
       S reads)
  end.

Definition process_batch (self : t) (requests : list Request) (show_progress : bool)
  : PyResult BatchRequestResult.t :=
  let start_time := time_time 0 in
  args ← engine_args self requests;
  let run := process_requests_multi args in
  let st := fold_left (update_progress self) (progress_calls run) initial_locals in
  metrics ← returned run;
  let '(provider_results, reads) :=
    fold_left (provider_step metrics start_time) (providers self) (∅, clock_reads st) in
  mret (BatchRequestResult.mk
          (py_len metrics)
          (total_tokens st)
          (prompt_tokens st)
          (completion_tokens st)
          (time_time reads - start_time)%Q
          metrics
          (total_request_bytes st)
          (total_response_bytes st)
          provider_results).

(** The calls the user's callback received during the batch. *)
Definition callback_calls (self : t) (requests : list Request) : list (Z * Z) :=
  match engine_args self requests with
  | Return args =>
      callback_log (fold_left (update_progress self)
                              (progress_calls (process_requests_multi args))
                              initial_locals)
  | Raise _ => []
  end.

End process_batch.

End BatchProcessor.

(** ** The progress bar fed by [update_progress] *)

Module Progress.

(** The fields [progress.update(task, ...)] sets in [update_progress]:
    [completed], the four rates and [threads]. *)
Record TaskFields : Type := {
  task_completed : Z;
  prompt_rate : Q;
  completion_rate : Q;
  uplink : Q;
  downlink : Q;
  threads : Z
}.

(** The second half of [update_progress]: after the five totals are
    updated, [elapsed = time.time() - start_time] is read, the rates are
    computed under the guard [if elapsed > 0] and handed to
    [progress.update]. [st] is the state before the call; the reading taken
    is the one numbered [clock_reads st]. *)
Definition update (time_time : nat -> Q) (self : BatchProcessor.t)
    (st : BatchProcessor.Locals) (c : ProgressCall) : PyResult TaskFields :=
  let st' := BatchProcessor.update_progress self st c in
  let elapsed := (time_time (BatchProcessor.clock_reads st) - time_time 0%nat)%Q in
  if py_gt0 elapsed
  then
    prompt_rate ← py_truediv (inject_Z (BatchProcessor.prompt_tokens st')) elapsed;
    completion_rate ← py_truediv (inject_Z (BatchProcessor.completion_tokens st')) elapsed;
    uplink_mbps ← py_truediv (inject_Z (BatchProcessor.total_request_bytes st' * 8))
                             (elapsed * inject_Z 1000000)%Q;
    downlink_mbps ← py_truediv (inject_Z (BatchProcessor.total_response_bytes st' * 8))
                               (elapsed * inject_Z 1000000)%Q;
    mret {| task_completed := completed c;
            prompt_rate := prompt_rate;
            completion_rate := completion_rate;
            uplink := uplink_mbps;
            downlink := downlink_mbps;
            threads := thread_count c |}
  else
    mret {| task_completed := completed c;
            prompt_rate := 0;
            completion_rate := 0;
            uplink := 0;
            downlink := 0;
            threads := thread_count c |}.

(** What the progress bar is given over the calls of a batch, one result
    per call of [update_progress], starting from the state [st]. *)
Fixpoint log (time_time : nat -> Q) (self : BatchProcessor.t)
    (st : BatchProcessor.Locals) (calls : list ProgressCall) : list (PyResult TaskFields) :=
  match calls with
  | [] => []
  | c :: rest =>
      update time_time self st c
      :: log time_time self (BatchProcessor.update_progress self st c) rest
  end.

End Progress.

(** ** The native engine

    The compiled extension module is not among the sources. Everything in
    [Module Native] is modelled from the spec: its data model (section 3),
    the provider transport (4.1), the dispatcher (4.3), the aggregator
    (4.4), the progress observer (4.5) and the error taxonomy (7). *)

Module Native.

(** Modelled from the spec: what the provider transport reports for one
    successful exchange (token counts, byte counts, duration). The counts
    are unsigned on the engine's side. *)
Record Usage : Type := {
  usage_prompt_tokens : N;
  usage_completion_tokens : N;
  usage_request_bytes : N;
  usage_response_bytes : N;
  usage_duration : Q
}.

(** Modelled from the spec: the transport failures (timeout, connection
    refused, malformed response, non-2xx status). *)
Inductive TransportError : Type :=
| Timeout
| ConnectionRefused
| MalformedResponse
| BadStatus (code : Z).

(** Modelled from the spec: everything the engine does not decide itself,
    which the spec leaves to the providers and to the scheduler: how each
    exchange ends (by submission index, provider, request and test-mode
    flag), which provider names are known, which of the requests in flight
    finishes next, and how many workers are active at each notification. *)
Record World : Type := {
  transport : nat -> ProviderTuple -> Request -> bool -> TransportError + Usage;
  supported : string -> bool;
  finishes_next : nat -> nat;
  active_workers : nat -> Z
}.

(** Modelled from the spec: what the engine does that the wrapper cannot
    see: the creation of a rate budget, the invocation of the transport for
    a request at a provider position, and a request reaching its terminal
    state. *)
Inductive Event : Type :=
| BudgetCreated (tokens_per_minute : option Z)
| TransportInvoked (request provider : nat)
| Finished (request : nat) (ok : bool).

(** Modelled from the spec: one dispatched request, with its submission
    index, the position and the configuration of the provider it is
    assigned, and the request. *)
Record Job : Type := {
  job_index : nat;
  job_provider : nat;
  job_config : ProviderTuple;
  job_request : Request
}.

(** Modelled from the spec: the provider identity key,
    ["{name}:{base_url}"], the same string as the wrapper's keys. *)
Definition key_of (p : ProviderTuple) : string :=
  let '(name, _, base_url, _) := p in name +:+ ":" +:+ py_str base_url.

Definition name_of (p : ProviderTuple) : string :=
  let '(name, _, _, _) := p in name.

(** Modelled from the spec: round-robin assignment. The i-th request in
    submission order goes to provider [i mod len(providers)]. [first] is
    the head of the (non-empty) list. *)
Definition assign (first : ProviderTuple) (providers : list ProviderTuple)
    (i : nat) (r : Request) : Job :=
  let p := (i mod length providers)%nat in
  {| job_index := i;
     job_provider := p;
     job_config := nth p providers first;
     job_request := r |}.

Definition dispatch (first : ProviderTuple) (providers : list ProviderTuple)
    (requests : list Request) : list Job :=
  imap (assign first providers) requests.

(** Modelled from the spec: metrics arrive in completion order, which need
    not be submission order. At step [k] the scheduler's choice picks one of
    the jobs still in flight; every choice function yields an order, and
    every order is reached by one ([drain_reaches]). *)
Fixpoint drain {A : Type} (choice : nat -> nat) (k : nat) (fuel : nat) (inflight : list A)
  : list A :=
  match fuel with
  | O => []
  | S fuel' =>
      let j := (choice k mod length inflight)%nat in
      match inflight !! j with
      | Some x => x :: drain choice (S k) fuel' (delete j inflight)
      | None => []
      end
  end.

Definition completion_order {A : Type} (choice : nat -> nat) (inflight : list A) : list A :=
  drain choice 0 (length inflight) inflight.

Definition outcome (W : World) (test_mode : bool) (j : Job) : TransportError + Usage :=
  transport W (job_index j) (job_config j) (job_request j) test_mode.

(** Modelled from the spec: the [RequestMetrics] of one job, "one record
    per completed (or failed) request". A successful exchange records its
    usage, with [total_tokens] the sum of the two token counts; a failed one
    is recorded and contributes no tokens and no bytes. Either carries the
    key of the provider the job was assigned. *)
Definition record (W : World) (test_mode : bool) (j : Job) : RequestMetrics.t :=
  match outcome W test_mode j with
  | inr u =>
      RequestMetrics.mk
        (key_of (job_config j))
        (Z.of_N (usage_prompt_tokens u))
        (Z.of_N (usage_completion_tokens u))
        (Z.of_N (usage_prompt_tokens u + usage_completion_tokens u))
        (Z.of_N (usage_request_bytes u))
        (Z.of_N (usage_response_bytes u))
        (usage_duration u)
  | inl _ => RequestMetrics.mk (key_of (job_config j)) 0 0 0 0 0 0%Q
  end.

Definition succeeded (W : World) (test_mode : bool) (j : Job) : bool :=
  match outcome W test_mode j with
  | inr _ => true
  | inl _ => false
  end.

(** Modelled from the spec: the notifications sent to the progress
    observer, one per successful job, in completion order, with that job's
    counts as the increments. [k] is the number of jobs that reached a
    terminal state before. *)
Fixpoint notifications (W : World) (test_mode : bool) (total : Z) (k : nat)
    (finished : list Job) : list ProgressCall :=
  match finished with
  | [] => []
  | j :: rest =>
      match outcome W test_mode j with
      | inr u =>
          [ {| completed := Z.of_nat (S k);
               total := total;
               new_prompt_tokens := Z.of_N (usage_prompt_tokens u);
               new_completion_tokens := Z.of_N (usage_completion_tokens u);
               new_request_bytes := Z.of_N (usage_request_bytes u);
               new_response_bytes := Z.of_N (usage_response_bytes u);
               thread_count := active_workers W k |} ]
      | inl _ => []
      end ++ notifications W test_mode total (S k) rest
  end.

(** Modelled from the spec: a configuration failure is an empty provider
    list or a provider name that is not known. It is detected before
    anything is dispatched. *)
Definition configuration_ok (W : World) (providers : list ProviderTuple) : bool :=
  match providers with
  | [] => false
  | _ :: _ => forallb (fun p => supported W (name_of p)) providers
  end.

(** Modelled from the spec: the jobs of a batch in the order they reach a
    terminal state. *)
Definition finished_jobs (W : World) (args : EngineArgs) : list Job :=
  match arg_providers args with
  | [] => []
  | first :: _ =>
      completion_order (finishes_next W)
        (dispatch first (arg_providers args) (arg_requests args))
  end.

(** Modelled from the spec: the function [process_requests_multi] of the
    compiled extension module, which is not among the sources. Following the
    spec's dispatcher: a configuration failure aborts before any dispatch;
    otherwise one rate budget is created from the [tokens_per_minute]
    argument, every request is dispatched once to the provider at its
    submission index modulo the number of providers, a failed exchange is
    recorded and does not abort the batch, metrics are collected in
    completion order, and the progress observer is notified of each
    success. Waiting on the rate budget takes time and changes no result;
    it is not modelled. *)
Definition process_requests_multi (W : World) : Engine := fun args =>
  if configuration_ok W (arg_providers args)
  then
    let finished := finished_jobs W args in
    {| progress_calls :=
         notifications W (arg_test_mode args) (py_len (arg_requests args)) 0 finished;
       returned := Return (record W (arg_test_mode args) <$> finished) |}
  else {| progress_calls := []; returned := Raise ConfigurationError |}.

(** Modelled from the spec: the engine's own events during that call. One
    rate budget is created per batch invocation from the [tokens_per_minute]
    argument; then come the transport invocations, listed in submission
    order, and the terminal states, listed in completion order. Nothing
    happens on a configuration failure. *)
Definition events (W : World) (args : EngineArgs) : list Event :=
  if configuration_ok W (arg_providers args)
  then
    match arg_providers args with
    | [] => []
    | first :: _ =>
        BudgetCreated (arg_tokens_per_minute args)
        :: ((fun j => TransportInvoked (job_index j) (job_provider j))
              <$> dispatch first (arg_providers args) (arg_requests args))
        ++ ((fun j => Finished (job_index j) (succeeded W (arg_test_mode args) j))
              <$> finished_jobs W args)
    end
  else [].

Definition is_invocation (e : Event) : bool :=
  match e with
  | TransportInvoked _ _ => true
  | _ => false
  end.

Definition is_budget (e : Event) : bool :=
  match e with
  | BudgetCreated _ => true
  | _ => false
  end.

End Native.

(** ** The wrapper over the modelled engine *)

Section Batch.

Variable time_time : nat -> Q.
Variable W : Native.World.

(** [BatchProcessor(...).process_batch(requests, show_progress)]. *)
Definition run_batch (self : BatchProcessor.t) (requests : list Request)
    (show_progress : bool) : PyResult BatchRequestResult.t :=
  BatchProcessor.process_batch time_time (Native.process_requests_multi W)
    self requests show_progress.

(** The engine's events during that call; none when the wrapper raises
    before calling the engine. *)
Definition batch_events (self : BatchProcessor.t) (requests : list Request)
  : list Native.Event :=
  match BatchProcessor.engine_args self requests with
  | Return args => Native.events W args
  | Raise _ => []
  end.

End Batch.

(** ** The demo harness ([demo.py]) *)

Module Demo.

Definition questions : list string :=
  [ "Is water wet? Explain in one sentence.";
    "Can birds fly? Answer yes or no and why briefly.";
    "Do fish swim? Provide a short explanation.";
    "Is the sky blue? Answer in one brief sentence.";
    "Are plants alive? Give a quick answer." ].

Definition variations : list string :=
  [ "Please answer:";
    "Tell me:";
    "I wonder:";
    "Quick question:";
    "Simple query:" ].

(** [random.choice(seq)]: the element at an index below [len(seq)] that
    the generator picks, [IndexError] on an empty sequence. [r] is the
    generator's draw. *)
Definition random_choice {A : Type} (seq : list A) (r : nat) : PyResult A :=
  py_getitem seq (r mod length seq)%nat.

Definition system_message : Message :=
  {[ "role" := "system";
     "content" := "You are a direct and concise assistant. Keep answers under 10 words." ]}.

Definition user_message (content : string) : Message :=
  {[ "role" := "user"; "content" := content ]}.

(** [create_demo_messages()], with the two draws of the generator. *)
Definition create_demo_messages (r1 r2 : nat) : PyResult Request :=
  question ← random_choice questions r1;
  variation ← random_choice variations r2;
  mret [ system_message; user_message (variation +:+ " " +:+ question) ].

(** [[create_demo_messages() for _ in range(n)]], one pair of draws each. *)
Definition demo_requests (draws : list (nat * nat)) : list (PyResult Request) :=
  (fun d => create_demo_messages d.1 d.2) <$> draws.

(** Every request the harness can generate. *)
Definition all_requests : list (PyResult Request) :=
  q ← questions; v ← variations;
  [ Return [ system_message; user_message (v +:+ " " +:+ q) ] ].

End Demo.

(** ** Concrete batches *)

Module Examples.

Definition provider (n : string) (url : option string) (limit : option Z) : ProviderConfig :=
  {| name := n;
     api_key := "EMPTY";
     config := ∅;
     base_url := url;
     tokens_per_minute := limit;
     test_mode := true |}.

Definition port_8080 : ProviderConfig := provider "openai" (Some "http://h:8080") (Some 1000).
Definition port_8081 : ProviderConfig := provider "openai" (Some "http://h:8081") (Some 600).
Definition port_8082 : ProviderConfig := provider "openai" (Some "http://h:8082") None.
Definition default_a : ProviderConfig := provider "openai" None None.
Definition default_b : ProviderConfig := provider "openai" None (Some 1200).

Definition usage (p c : N) : Native.Usage :=
  {| Native.usage_prompt_tokens := p;
     Native.usage_completion_tokens := c;
     Native.usage_request_bytes := 100 * p;
     Native.usage_response_bytes := 40 * c;
     Native.usage_duration := 1 # 2 |}.

Definition known (s : string) : bool := bool_decide (s = "openai") || bool_decide (s = "anthropic").

(** Every exchange succeeds except the one for the request submitted
    second; the second job in flight always finishes first. *)
Definition world : Native.World :=
  {| Native.transport := fun i _ _ _ =>
       if Nat.eqb i 1 then inl Native.Timeout else inr (usage (N.of_nat i + 3) 7);
     Native.supported := known;
     Native.finishes_next := fun _ => 1%nat;
     Native.active_workers := fun _ => 4 |}.

(** The same world with the jobs finishing in submission order. *)
Definition world_in_order : Native.World :=
  {| Native.transport := Native.transport world;
     Native.supported := known;
     Native.finishes_next := fun _ => 0%nat;
     Native.active_workers := fun _ => 4 |}.

(** Every exchange fails. *)
Definition world_down : Native.World :=
  {| Native.transport := fun _ _ _ _ => inl Native.ConnectionRefused;
     Native.supported := known;
     Native.finishes_next := fun k => k;
     Native.active_workers := fun _ => 2 |}.

Definition clock (k : nat) : Q := inject_Z (Z.of_nat k) / 4.

Definition hello : Request := [ {[ "role" := "user"; "content" := "Hello, world!" ]} ].

Definition three_requests : list Request := [hello; hello; hello].

Definition two_ports : BatchProcessor.t :=
  BatchProcessor.__init__ (BatchProcessor.Many [port_8080; port_8081]) true.

Definition three_ports : BatchProcessor.t :=
  BatchProcessor.__init__ (BatchProcessor.Many [port_8080; port_8081; port_8082]) false.

Definition two_defaults : BatchProcessor.t :=
  BatchProcessor.__init__ (BatchProcessor.Many [default_a; port_8080; default_b]) false.

(** One second of wall time, a million request bytes. *)
Definition megabyte_in_a_second : BatchRequestResult.t :=
  BatchRequestResult.mk 1 30 20 10 1 [] 1000000 500000 ∅.

(** A metric with the given key and token counts. *)
Definition metric (key : string) (p c : Z) : RequestMetrics.t :=
  RequestMetrics.mk key p c (p + c) (100 * p) (40 * c) (1 # 2).

Definition report (k p c : Z) : ProgressCall :=
  {| completed := k;
     total := 2;
     new_prompt_tokens := p;
     new_completion_tokens := c;
     new_request_bytes := 100 * p;
     new_response_bytes := 40 * c;
     thread_count := 4 |}.

(** An engine that reports less than its metrics say, and returns a metric
    under a key no provider is configured with. *)
Definition stray_engine : Engine := fun _ =>
  {| progress_calls := [report 1 1 2];
     returned := Return [metric "openai:http://h:8080" 3 7; metric "elsewhere:None" 5 7] |}.

(** Two engines that differ in the order of arrival only. *)
Definition early_engine : Engine := fun _ =>
  {| progress_calls := [report 1 3 7; report 2 5 7];
     returned := Return [metric "openai:http://h:8080" 3 7;
                         metric "openai:http://h:8081" 5 7] |}.

Definition late_engine : Engine := fun _ =>
  {| progress_calls := [report 2 5 7; report 1 3 7];
     returned := Return [metric "openai:http://h:8081" 5 7;
                         metric "openai:http://h:8080" 3 7] |}.

(** [two_ports] with another mode and another limit on the second
    provider. *)
Definition two_ports_mixed : BatchProcessor.t :=
  BatchProcessor.__init__
    (BatchProcessor.Many
       [port_8080;
        {| name := "openai";
           api_key := "EMPTY";
           config := ∅;
           base_url := Some "http://h:8081";
           tokens_per_minute := Some 5;
           test_mode := false |}])
    true.

(** A thousand pairs of draws for the demo harness. *)
Definition thousand_draws : list (nat * nat) :=
  (fun i => (i, 3 * i)%nat) <$> seq 0 1000.

End Examples.

(** ** Predicates of the statements *)

(** A property evaluates to the float [q], without raising. *)
Definition rate_is (v : PyResult Q) (q : Q) : Prop :=
  match v with
  | Return x => (x == q)%Q
  | Raise _ => False
  end.

(** [sum(v.field for v in d.values())]. *)
Definition dict_sum {V : Type} (field : V -> Z) (d : gmap string V) : Z :=
  py_sum field (snd <$> map_to_list d).

(** The batch has no configuration failure in world [W]: there is a
    provider, and every provider's name is known. *)
Definition configured (W : Native.World) (self : BatchProcessor.t) : bool :=
  Native.configuration_ok W (BatchProcessor.provider_tuple <$> BatchProcessor.providers self).

(** Two configurations that differ at most in [tokens_per_minute]. *)
Definition same_but_limit (p q : ProviderConfig) : Prop :=
  name p = name q /\ api_key p = api_key q /\ config p = config q /\
  base_url p = base_url q /\ test_mode p = test_mode q.

(** The token and byte invariant of one [RequestMetrics]. *)
Definition metric_well_formed (m : RequestMetrics.t) : Prop :=
  RequestMetrics.total_tokens m =
    RequestMetrics.prompt_tokens m + RequestMetrics.completion_tokens m /\
  0 <= RequestMetrics.prompt_tokens m /\
  0 <= RequestMetrics.completion_tokens m /\
  0 <= RequestMetrics.total_tokens m /\
  0 <= RequestMetrics.request_bytes m /\
  0 <= RequestMetrics.response_bytes m.

(** The token and byte invariant of one [BatchRequestResult]. *)
Definition result_well_formed (r : BatchRequestResult.t) : Prop :=
  BatchRequestResult.total_tokens r =
    BatchRequestResult.prompt_tokens r + BatchRequestResult.completion_tokens r /\
  0 <= BatchRequestResult.prompt_tokens r /\
  0 <= BatchRequestResult.completion_tokens r /\
  0 <= BatchRequestResult.total_tokens r /\
  0 <= BatchRequestResult.total_request_bytes r /\
  0 <= BatchRequestResult.total_response_bytes r.

(** An aggregate with no tokens and no bytes. *)
Definition no_tokens_no_bytes (r : BatchRequestResult.t) : Prop :=
  BatchRequestResult.total_tokens r = 0 /\
  BatchRequestResult.prompt_tokens r = 0 /\
  BatchRequestResult.completion_tokens r = 0 /\
  BatchRequestResult.total_request_bytes r = 0 /\
  BatchRequestResult.total_response_bytes r = 0.

(** The metrics whose key has an entry in the breakdown [d]. *)
Definition covered (metrics : list RequestMetrics.t) (d : gmap string BatchRequestResult.t)
  : list RequestMetrics.t :=
  filter (fun m => is_Some (d !! RequestMetrics.provider_name m)) metrics.

(** The entries of [d] add up, in [field], to the sum of [g] over the
    metrics they cover, each entry summing the metrics of its own key. *)
Definition sums_its_metrics (field : BatchRequestResult.t -> Z) (g : RequestMetrics.t -> Z)
    (metrics : list RequestMetrics.t) (d : gmap string BatchRequestResult.t) : Prop :=
  dict_sum field d = py_sum g (covered metrics d) /\
  forall k v, d !! k = Some v ->
    field v = py_sum g (BatchProcessor.metrics_of k metrics).

(** The wall clock never goes backwards. *)
Definition clock_monotone (time_time : nat -> Q) : Prop :=
  forall i j, (i <= j)%nat -> (time_time i <= time_time j)%Q.


(** Two aggregates with the same numbers, over the same metrics up to their
    order. *)
Definition same_numbers (x y : BatchRequestResult.t) : Prop :=
  BatchRequestResult.total_requests x = BatchRequestResult.total_requests y /\
  BatchRequestResult.total_tokens x = BatchRequestResult.total_tokens y /\
  BatchRequestResult.prompt_tokens x = BatchRequestResult.prompt_tokens y /\
  BatchRequestResult.completion_tokens x = BatchRequestResult.completion_tokens y /\
  BatchRequestResult.total_time x = BatchRequestResult.total_time y /\
  BatchRequestResult.total_request_bytes x = BatchRequestResult.total_request_bytes y /\
  BatchRequestResult.total_response_bytes x = BatchRequestResult.total_response_bytes y /\
  BatchRequestResult.metrics x ≡ₚ BatchRequestResult.metrics y.

(** The metric carries the key of one of the configured providers. *)
Definition configured_key (self : BatchProcessor.t) (m : RequestMetrics.t) : Prop :=
  RequestMetrics.provider_name m
  ∈ BatchProcessor.provider_key <$> BatchProcessor.providers self.

#[global] Instance configured_key_dec self m : Decision (configured_key self m).
Proof. unfold configured_key. apply _. Defined.

(** Every exchange fails in world [W]. *)
Definition transport_down (W : Native.World) : Prop :=
  forall i p request test_mode, exists e, Native.transport W i p request test_mode = inl e.

(** ** Properties of the derived rates *)

Section Rates.

Import BatchRequestResult.

Lemma py_gt0_spec (y : Q) : py_gt0 y = true <-> (0 < y)%Q.
Proof.
  unfold py_gt0. rewrite Qlt_alt.
  destruct (0 ?= y)%Q; split; intros H; congruence.
Qed.

Lemma py_truediv_defined (x y : Q) : ~ (y == 0)%Q -> py_truediv x y = Return (x / y)%Q.
Proof.
  intros Hy. unfold py_truediv.
  destruct (Qeq_bool y 0) eqn:E; [|reflexivity].
  apply Qeq_bool_iff in E. contradiction.
Qed.

Lemma guarded_rate (num den t : Q) :
  ((0 < t)%Q -> ~ (den == 0)%Q) ->
  let v := if py_gt0 t then py_truediv num den else Return 0%Q in
  ((0 < t)%Q -> rate_is v (num / den)%Q) /\
  (~ (0 < t)%Q -> v = Return 0%Q) /\
  (forall e, v <> Raise e).
Proof.
  intros Hden v. subst v.
  destruct (py_gt0 t) eqn:E.
  - apply py_gt0_spec in E.
    rewrite py_truediv_defined by auto.
    split; [intros _; simpl; reflexivity | split; [contradiction | discriminate]].
  - assert (~ (0 < t)%Q) by (rewrite <- py_gt0_spec; congruence).
    split; [contradiction | split; [reflexivity | discriminate]].
Qed.

Lemma scaled_time_nonzero (t : Q) : (0 < t)%Q -> ~ (t * inject_Z 1000000 == 0)%Q.
Proof.
  intros Ht Hz.
  assert (0 < t * inject_Z 1000000)%Q as Hpos.
  { apply Qmult_lt_0_compat; [assumption | reflexivity]. }
  rewrite Hz in Hpos. exact (Qlt_irrefl _ Hpos).
Qed.

Lemma time_nonzero (t : Q) : (0 < t)%Q -> ~ (t == 0)%Q.
Proof. intros Ht Hz. rewrite Hz in Ht. exact (Qlt_irrefl _ Ht). Qed.

(** C4, as the code has it: for every BatchRequestResult, when
    [total_time > 0] the four count rates are the count divided by
    [total_time], and [uplink_mbps] and [downlink_mbps] are the byte sum
    times 8 divided by [total_time * 1_000_000] (megabits per second); when
    [total_time] is not positive all six are 0; and none of the six raises,
    whatever [total_time] is. *)
Theorem derived_rates_guarded (r : BatchRequestResult.t) :
  ((0 < total_time r)%Q ->
     rate_is (requests_per_second r) (inject_Z (total_requests r) / total_time r)%Q /\
     rate_is (tokens_per_second r) (inject_Z (total_tokens r) / total_time r)%Q /\
     rate_is (prompt_tokens_per_second r) (inject_Z (prompt_tokens r) / total_time r)%Q /\
     rate_is (completion_tokens_per_second r)
             (inject_Z (completion_tokens r) / total_time r)%Q /\
     rate_is (uplink_mbps r)
             (inject_Z (total_request_bytes r * 8) / (total_time r * inject_Z 1000000))%Q /\
     rate_is (downlink_mbps r)
             (inject_Z (total_response_bytes r * 8) / (total_time r * inject_Z 1000000))%Q) /\
  (~ (0 < total_time r)%Q ->
     requests_per_second r = Return 0%Q /\
     tokens_per_second r = Return 0%Q /\
     prompt_tokens_per_second r = Return 0%Q /\
     completion_tokens_per_second r = Return 0%Q /\
     uplink_mbps r = Return 0%Q /\
     downlink_mbps r = Return 0%Q) /\
  (forall e,
     requests_per_second r <> Raise e /\
     tokens_per_second r <> Raise e /\
     prompt_tokens_per_second r <> Raise e /\
     completion_tokens_per_second r <> Raise e /\
     uplink_mbps r <> Raise e /\
     downlink_mbps r <> Raise e).
Proof.
  pose proof (fun n => guarded_rate n (total_time r) (total_time r) (@time_nonzero _)) as Hcount.
  pose proof (fun n => guarded_rate n (total_time r * inject_Z 1000000)%Q (total_time r)
                         (@scaled_time_nonzero _)) as Hlink.
  cbv zeta in Hcount, Hlink.
  unfold requests_per_second, tokens_per_second, prompt_tokens_per_second,
    completion_tokens_per_second, uplink_mbps, downlink_mbps.
  split; [|split].
  - intros Ht. repeat split; first [apply Hcount | apply Hlink]; exact Ht.
  - intros Ht. repeat split; first [apply Hcount | apply Hlink]; exact Ht.
  - intros e. repeat split; first [apply Hcount | apply Hlink].
Qed.

(** C4, as stated, fails for the two bandwidth rates: with a million request
    bytes sent in one second, [uplink_mbps] is 8, which is neither the byte
    sum over the elapsed time nor the bit sum over the elapsed time. *)
Lemma uplink_mbps_is_not_sum_over_time :
  let r := Examples.megabyte_in_a_second in
  (0 < total_time r)%Q /\
  rate_is (uplink_mbps r) 8%Q /\
  ~ rate_is (uplink_mbps r) (inject_Z (total_request_bytes r) / total_time r)%Q /\
  ~ rate_is (uplink_mbps r) (inject_Z (total_request_bytes r * 8) / total_time r)%Q.
Proof.
  cbv zeta. split; [reflexivity|]. split; [reflexivity|].
  split; intros H; vm_compute in H; discriminate H.
Qed.

End Rates.

(** ** Sums *)

Lemma fold_left_step {A B : Type} (f : A -> B -> A) (b : B) (l : list B) (a : A) :
  fold_left f (b :: l) a = fold_left f l (f a b).
Proof. reflexivity. Qed.

Section Sums.

Context {A : Type}.
Implicit Types (f g : A -> Z) (l : list A).

Lemma py_sum_from f l (z : Z) :
  fold_left (fun acc a => acc + f a) l z = z + py_sum f l.
Proof.
  unfold py_sum. revert z.
  induction l as [|a l IH]; intros z; simpl; [lia|].
  rewrite (IH (z + f a)), (IH (0 + f a)). lia.
Qed.

Lemma py_sum_nil f : py_sum f [] = 0.
Proof. reflexivity. Qed.

Lemma py_sum_cons f a l : py_sum f (a :: l) = f a + py_sum f l.
Proof. unfold py_sum at 1. simpl. apply py_sum_from. Qed.

Lemma py_sum_app f l1 l2 : py_sum f (l1 ++ l2) = py_sum f l1 + py_sum f l2.
Proof.
  induction l1 as [|a l1 IH]; simpl; [rewrite py_sum_nil; lia|].
  rewrite !py_sum_cons, IH. lia.
Qed.

Lemma py_sum_perm f l1 l2 : l1 ≡ₚ l2 -> py_sum f l1 = py_sum f l2.
Proof.
  induction 1 as [|a l1 l2 _ IH|a b l|l1 l2 l3 _ IH1 _ IH2];
    rewrite ?py_sum_cons; lia.
Qed.

Lemma py_sum_plus f g l :
  py_sum (fun a => f a + g a) l = py_sum f l + py_sum g l.
Proof.
  induction l as [|a l IH]; [reflexivity|].
  rewrite !py_sum_cons, IH. lia.
Qed.

Lemma py_sum_nonneg f l : Forall (fun a => 0 <= f a) l -> 0 <= py_sum f l.
Proof.
  induction 1 as [|a l Ha _ IH]; [rewrite py_sum_nil; lia|].
  rewrite py_sum_cons. lia.
Qed.

Lemma py_sum_zero f l : Forall (fun a => f a = 0) l -> py_sum f l = 0.
Proof.
  induction 1 as [|a l Ha _ IH]; [reflexivity|].
  rewrite py_sum_cons. lia.
Qed.

Lemma py_sum_ones l : py_sum (fun _ => 1) l = py_len l.
Proof.
  unfold py_len. induction l as [|a l IH]; [reflexivity|].
  rewrite py_sum_cons, IH. simpl length. lia.
Qed.

End Sums.

Lemma filter_all {A : Type} (P : A -> Prop) `{!forall a, Decision (P a)} (l : list A) :
  (forall a, a ∈ l -> P a) -> filter P l = l.
Proof.
  induction l as [|a l IH]; intros Hall; [reflexivity|].
  rewrite filter_cons_True by (apply Hall, list_elem_of_here).
  f_equal. apply IH. intros b Hb. apply Hall, list_elem_of_further, Hb.
Qed.

Lemma dict_sum_empty {V : Type} (field : V -> Z) : dict_sum field ∅ = 0.
Proof. unfold dict_sum. rewrite map_to_list_empty. reflexivity. Qed.

Lemma dict_sum_insert {V : Type} (field : V -> Z) (d : gmap string V) k v :
  d !! k = None -> dict_sum field (<[k := v]> d) = field v + dict_sum field d.
Proof.
  intros Hk. unfold dict_sum.
  rewrite (py_sum_perm field _ (snd <$> ((k, v) :: map_to_list d))).
  - rewrite fmap_cons, py_sum_cons. reflexivity.
  - apply fmap_Permutation, map_to_list_insert, Hk.
Qed.

(** ** The wrapper, over any engine *)

Section Wrapper.

Import BatchProcessor.

Variable time_time : nat -> Q.
Variable engine : Engine.

Implicit Types (self : BatchProcessor.t) (st : Locals) (calls : list ProgressCall).
Implicit Types (metrics : list RequestMetrics.t) (d : gmap string BatchRequestResult.t).

(** *** The accumulators of [update_progress] *)

Lemma update_progress_fold self calls st :
  let st' := fold_left (update_progress self) calls st in
  prompt_tokens st' = prompt_tokens st + py_sum new_prompt_tokens calls /\
  completion_tokens st' = completion_tokens st + py_sum new_completion_tokens calls /\
  total_request_bytes st' = total_request_bytes st + py_sum new_request_bytes calls /\
  total_response_bytes st' = total_response_bytes st + py_sum new_response_bytes calls /\
  clock_reads st' = (clock_reads st + length calls)%nat /\
  (total_tokens st = prompt_tokens st + completion_tokens st ->
   total_tokens st' = prompt_tokens st' + completion_tokens st').
Proof.
  revert st. induction calls as [|c calls IH]; intros st; cbv zeta.
  - simpl. rewrite !py_sum_nil. repeat split; first [lia | auto].
  - simpl fold_left. specialize (IH (update_progress self st c)). cbv zeta in IH.
    destruct IH as (Hp & Hc & Hq & Hs & Hr & Ht).
    rewrite !py_sum_cons. simpl in Hp, Hc, Hq, Hs, Hr, Ht.
    split; [lia|]. split; [lia|]. split; [lia|]. split; [lia|].
    split; [simpl length; lia|].
    intros _. apply Ht. reflexivity.
Qed.

(** *** The loop over the providers *)

Lemma metrics_of_spec k metrics m :
  m ∈ metrics_of k metrics <-> m ∈ metrics /\ RequestMetrics.provider_name m = k.
Proof. unfold metrics_of. rewrite list_elem_of_filter. tauto. Qed.

Lemma provider_step_skip metrics start d n p :
  metrics_of (provider_key p) metrics = [] ->
  provider_step time_time metrics start (d, n) p = (d, n).
Proof. intros H. unfold provider_step. rewrite H. reflexivity. Qed.

Lemma provider_step_insert metrics start d n p :
  metrics_of (provider_key p) metrics <> [] ->
  provider_step time_time metrics start (d, n) p =
    (<[provider_key p :=
         provider_result (metrics_of (provider_key p) metrics) (time_time n) start]> d,
     S n).
Proof.
  intros H. unfold provider_step.
  destruct (metrics_of (provider_key p) metrics); [contradiction | reflexivity].
Qed.

(** A key none of whose metrics exist is left as it was. *)
Lemma loop_absent metrics start k ps d n :
  metrics_of k metrics = [] ->
  (fold_left (provider_step time_time metrics start) ps (d, n)).1 !! k = d !! k.
Proof.
  intros Hk. revert d n.
  induction ps as [|p ps IH]; intros d n; [reflexivity|].
  rewrite fold_left_step.
  destruct (decide (metrics_of (provider_key p) metrics = [])) as [He|He].
  - rewrite provider_step_skip by exact He. apply IH.
  - rewrite provider_step_insert by exact He. rewrite IH.
    apply lookup_insert_ne. intros Heq. rewrite Heq in He. contradiction.
Qed.

(** Every entry is either an old one or the sub-aggregate of a configured
    provider's key. *)
Lemma loop_entry metrics start k v ps d n :
  (fold_left (provider_step time_time metrics start) ps (d, n)).1 !! k = Some v ->
  d !! k = Some v \/
  exists p now, p ∈ ps /\ provider_key p = k /\ metrics_of k metrics <> [] /\
                v = provider_result (metrics_of k metrics) now start.
Proof.
  revert d n. induction ps as [|p ps IH]; intros d n; [left; assumption|].
  rewrite fold_left_step.
  destruct (decide (metrics_of (provider_key p) metrics = [])) as [He|He].
  - rewrite provider_step_skip by exact He. intros H.
    destruct (IH _ _ H) as [?|(q & now & ? & ?)]; [left; assumption|].
    right. exists q, now. split; [apply list_elem_of_further|]; tauto.
  - rewrite provider_step_insert by exact He. intros H.
    destruct (IH _ _ H) as [Hd|(q & now & ? & ?)].
    + destruct (decide (provider_key p = k)) as [<-|Hne].
      * rewrite lookup_insert_eq in Hd. injection Hd as <-.
        right. exists p, (time_time n).
        split; [apply list_elem_of_here|]. auto.
      * rewrite lookup_insert_ne in Hd by exact Hne. left; assumption.
    + right. exists q, now. split; [apply list_elem_of_further|]; tauto.
Qed.

(** A key with at least one metric has its entry once one of the providers
    carries that key (or when the entry was there before). *)
Lemma loop_present_gen metrics start k ps d n :
  metrics_of k metrics <> [] ->
  (exists p, p ∈ ps /\ provider_key p = k) \/
  (exists now, d !! k = Some (provider_result (metrics_of k metrics) now start)) ->
  exists now,
    (fold_left (provider_step time_time metrics start) ps (d, n)).1 !! k =
    Some (provider_result (metrics_of k metrics) now start).
Proof.
  intros Hne. revert d n.
  induction ps as [|q ps IH]; intros d n Hpre.
  - destruct Hpre as [(p & Hp & _)|Hd]; [inversion Hp | exact Hd].
  - rewrite fold_left_step.
    destruct (decide (metrics_of (provider_key q) metrics = [])) as [He|He].
    + rewrite provider_step_skip by exact He. apply IH.
      destruct Hpre as [(p & Hp & Hk)|Hd]; [|right; exact Hd].
      apply elem_of_cons in Hp as [->|Hp]; [congruence|].
      left. exists p. auto.
    + rewrite provider_step_insert by exact He. apply IH.
      destruct (decide (provider_key q = k)) as [<-|Hk].
      * right. exists (time_time n). apply lookup_insert_eq.
      * destruct Hpre as [(p & Hp & Hkp)|(now & Hd)].
        -- apply elem_of_cons in Hp as [->|Hp]; [congruence|].
           left. exists p. auto.
        -- right. exists now. rewrite lookup_insert_ne by exact Hk. exact Hd.
Qed.

Lemma loop_present metrics start p ps n :
  p ∈ ps ->
  metrics_of (provider_key p) metrics <> [] ->
  exists now,
    (fold_left (provider_step time_time metrics start) ps (∅, n)).1 !! provider_key p =
    Some (provider_result (metrics_of (provider_key p) metrics) now start).
Proof.
  intros Hp Hne. apply loop_present_gen; [exact Hne|].
  left. exists p. auto.
Qed.

(** *** What a returned result is made of *)

Lemma process_batch_returns self requests show_progress r :
  process_batch time_time engine self requests show_progress = Return r ->
  exists args metrics,
    engine_args self requests = Return args /\
    returned (engine args) = Return metrics /\
    let st := fold_left (update_progress self) (progress_calls (engine args)) initial_locals in
    let loop := fold_left (provider_step time_time metrics (time_time 0))
                          (providers self) (∅, clock_reads st) in
    r = BatchRequestResult.mk
          (py_len metrics) (total_tokens st) (prompt_tokens st) (completion_tokens st)
          (time_time loop.2 - time_time 0)%Q metrics
          (total_request_bytes st) (total_response_bytes st) loop.1.
Proof.
  unfold process_batch.
  destruct (engine_args self requests) as [args|e]; [|discriminate].
  simpl mbind. unfold mbind, py_bind.
  destruct (returned (engine args)) as [metrics|e] eqn:Hret; [|discriminate].
  intros H. exists args, metrics. split; [reflexivity|]. split; [exact Hret|].
  cbv zeta.
  destruct (fold_left _ (providers self) _) as [d n]. simpl in *.
  injection H as <-. reflexivity.
Qed.

Lemma engine_args_returns self requests args :
  engine_args self requests = Return args ->
  exists first rest,
    providers self = first :: rest /\
    args = {| arg_providers := provider_tuple <$> providers self;
              arg_requests := requests;
              arg_test_mode := test_mode first;
              arg_tokens_per_minute := tokens_per_minute first |}.
Proof.
  unfold engine_args, py_getitem.
  destruct (providers self) as [|first rest]; [discriminate|].
  simpl. intros H. injection H as <-. eauto.
Qed.

End Wrapper.

(** ** The keys of the per-provider breakdown *)

Lemma provider_key_format (p : ProviderConfig) :
  BatchProcessor.provider_key p = name p +:+ ":" +:+ py_str (base_url p).
Proof. reflexivity. Qed.

Lemma provider_key_inj_url (p1 p2 : ProviderConfig) :
  name p1 = name p2 ->
  BatchProcessor.provider_key p1 = BatchProcessor.provider_key p2 <->
  py_str (base_url p1) = py_str (base_url p2).
Proof.
  unfold BatchProcessor.provider_key. intros ->. split.
  - intros H. apply String.app_inj in H. apply String.app_inj in H. exact H.
  - intros ->. reflexivity.
Qed.

Section Breakdown.

Import BatchProcessor.

Variable time_time : nat -> Q.
Variable engine : Engine.

(** C7: the keys of [provider_metrics] are exactly the strings
    ["{name}:{base_url}"] of the configured providers that have metrics, each
    entry aggregates the metrics carrying its key and no others, two
    providers with the same name have the same key exactly when their base
    URLs render to the same text, and two providers with the same name and
    distinct base URLs have distinct keys, hence separate entries over
    disjoint metrics. *)
Theorem breakdown_keyed_by_name_and_base_url
    (self : BatchProcessor.t) (requests : list Request) (show_progress : bool)
    (r : BatchRequestResult.t) :
  process_batch time_time engine self requests show_progress = Return r ->
  let metrics := BatchRequestResult.metrics r in
  let breakdown := BatchRequestResult.provider_metrics r in
  (forall k v, breakdown !! k = Some v ->
     exists p now,
       p ∈ providers self /\
       k = name p +:+ ":" +:+ py_str (base_url p) /\
       v = provider_result (metrics_of k metrics) now (time_time 0)) /\
  (forall p, p ∈ providers self ->
     metrics_of (name p +:+ ":" +:+ py_str (base_url p)) metrics <> [] ->
     exists now,
       breakdown !! (name p +:+ ":" +:+ py_str (base_url p)) =
       Some (provider_result
               (metrics_of (name p +:+ ":" +:+ py_str (base_url p)) metrics)
               now (time_time 0))) /\
  (forall p1 p2,
     name p1 = name p2 ->
     (provider_key p1 = provider_key p2 <-> py_str (base_url p1) = py_str (base_url p2))) /\
  (forall p1 p2 u1 u2,
     p1 ∈ providers self -> p2 ∈ providers self ->
     name p1 = name p2 ->
     base_url p1 = Some u1 -> base_url p2 = Some u2 -> u1 <> u2 ->
     provider_key p1 <> provider_key p2 /\
     forall m, m ∈ metrics_of (provider_key p1) metrics ->
               m ∉ metrics_of (provider_key p2) metrics).
Proof.
  intros Hrun.
  destruct (process_batch_returns _ _ _ _ _ _ Hrun) as (args & ms & _ & _ & Hr).
  cbv zeta in Hr. subst r. cbv zeta. simpl.
  split; [|split; [|split]].
  - intros k v Hkv.
    apply loop_entry in Hkv as [Hkv|(p & now & Hp & Hk & _ & Hv)].
    + rewrite lookup_empty in Hkv. discriminate.
    + exists p, now. rewrite <- provider_key_format. auto.
  - intros p Hp Hne. rewrite <- provider_key_format in *.
    apply loop_present; assumption.
  - intros p1 p2 Hname. apply provider_key_inj_url, Hname.
  - intros p1 p2 u1 u2 _ _ Hname Hu1 Hu2 Hu.
    assert (provider_key p1 <> provider_key p2) as Hk.
    { intros Hk. apply provider_key_inj_url in Hk; [|exact Hname].
      rewrite Hu1, Hu2 in Hk. simpl in Hk. contradiction. }
    split; [exact Hk|].
    intros m Hm1 Hm2.
    apply metrics_of_spec in Hm1 as [_ H1].
    apply metrics_of_spec in Hm2 as [_ H2]. congruence.
Qed.

(** C8: a configured provider none of whose requests has a record in the
    returned metrics has no entry under its key; every entry there
    counts at least one request. *)
Theorem no_entry_without_completed_requests
    (self : BatchProcessor.t) (requests : list Request) (show_progress : bool)
    (r : BatchRequestResult.t) (p : ProviderConfig) :
  process_batch time_time engine self requests show_progress = Return r ->
  p ∈ providers self ->
  metrics_of (provider_key p) (BatchRequestResult.metrics r) = [] ->
  BatchRequestResult.provider_metrics r !! provider_key p = None /\
  (forall k v, BatchRequestResult.provider_metrics r !! k = Some v ->
               0 < BatchRequestResult.total_requests v).
Proof.
  intros Hrun _ Hnone.
  destruct (process_batch_returns _ _ _ _ _ _ Hrun) as (args & ms & _ & _ & Hr).
  cbv zeta in Hr. subst r. simpl in *.
  split.
  - rewrite loop_absent by exact Hnone. apply lookup_empty.
  - intros k v Hkv.
    apply loop_entry in Hkv as [Hkv|(q & now & _ & _ & Hne & ->)].
    + rewrite lookup_empty in Hkv. discriminate.
    + simpl. unfold py_len.
      destruct (metrics_of k ms); [contradiction | simpl length; lia].
Qed.

(** C9: a single [ProviderConfig] given to the constructor is stored as the
    one-element list, and [process_batch] (with the calls it makes to the
    user's callback) is the same as for that list. *)
Theorem single_config_is_one_element_list
    (p : ProviderConfig) (progress_callback : bool)
    (requests : list Request) (show_progress : bool) :
  providers (__init__ (Single p) progress_callback) = [p] /\
  __init__ (Single p) progress_callback = __init__ (Many [p]) progress_callback /\
  process_batch time_time engine (__init__ (Single p) progress_callback)
                requests show_progress =
  process_batch time_time engine (__init__ (Many [p]) progress_callback)
                requests show_progress /\
  callback_calls engine (__init__ (Single p) progress_callback) requests =
  callback_calls engine (__init__ (Many [p]) progress_callback) requests.
Proof. repeat split. Qed.

(** C10: with [base_url] unset the key is the provider's name, a colon and
    the text [None]; two configured providers with the same name and no base
    URL have the same key, hence one entry, which aggregates every metric
    carrying that key. *)
Theorem unset_base_url_key_is_name_colon_None
    (self : BatchProcessor.t) (requests : list Request) (show_progress : bool)
    (r : BatchRequestResult.t) (p1 p2 : ProviderConfig) :
  process_batch time_time engine self requests show_progress = Return r ->
  p1 ∈ providers self -> p2 ∈ providers self ->
  name p1 = name p2 ->
  base_url p1 = None -> base_url p2 = None ->
  provider_key p1 = name p1 +:+ ":None" /\
  provider_key p2 = provider_key p1 /\
  forall v, BatchRequestResult.provider_metrics r !! (name p1 +:+ ":None") = Some v ->
    BatchRequestResult.metrics v =
      metrics_of (name p1 +:+ ":None") (BatchRequestResult.metrics r) /\
    BatchRequestResult.total_requests v =
      py_len (metrics_of (name p1 +:+ ":None") (BatchRequestResult.metrics r)).
Proof.
  intros Hrun _ _ Hname Hu1 Hu2.
  assert (provider_key p1 = name p1 +:+ ":None") as Hk1.
  { unfold provider_key. rewrite Hu1. reflexivity. }
  split; [exact Hk1|]. split.
  { unfold provider_key. rewrite Hu1, Hu2, Hname. reflexivity. }
  destruct (process_batch_returns _ _ _ _ _ _ Hrun) as (args & ms & _ & _ & Hr).
  cbv zeta in Hr. subst r. simpl.
  intros v Hv.
  apply loop_entry in Hv as [Hv|(q & now & _ & _ & _ & ->)].
  - rewrite lookup_empty in Hv. discriminate.
  - split; reflexivity.
Qed.

End Breakdown.

(** ** The modelled engine *)

Section Engine.

Import Native.

Variable W : World.

Implicit Types (providers : list ProviderTuple) (requests : list Request) (j : Job).

(** *** Completion order *)

Lemma drain_perm {A : Type} (choice : nat -> nat) (fuel k : nat) (l : list A) :
  length l = fuel -> drain choice k fuel l ≡ₚ l.
Proof.
  revert k l. induction fuel as [|fuel IH]; intros k l Hlen.
  - destruct l; [reflexivity | discriminate].
  - simpl.
    assert ((choice k mod length l)%nat < length l)%nat as Hj.
    { apply Nat.mod_upper_bound. rewrite Hlen. discriminate. }
    destruct (lookup_lt_is_Some_2 _ _ Hj) as [x Hx]. rewrite Hx.
    transitivity (x :: delete (choice k mod length l)%nat l);
      [|symmetry; apply delete_Permutation, Hx].
    constructor. apply IH.
    rewrite length_delete by eauto. rewrite Hlen. simpl. apply Nat.sub_0_r.
Qed.

Lemma completion_order_perm {A : Type} (choice : nat -> nat) (l : list A) :
  completion_order choice l ≡ₚ l.
Proof. apply drain_perm. reflexivity. Qed.

Lemma drain_ext {A : Type} (c1 c2 : nat -> nat) (fuel k : nat) (l : list A) :
  (forall n, (k <= n)%nat -> c1 n = c2 n) ->
  drain c1 k fuel l = drain c2 k fuel l.
Proof.
  revert k l. induction fuel as [|fuel IH]; intros k l Hc; [reflexivity|].
  simpl. rewrite (Hc k) by lia.
  destruct (l !! _); [|reflexivity].
  f_equal. apply IH. intros n Hn. apply Hc. lia.
Qed.

(** Every order of the jobs in flight is the completion order under some
    scheduler. *)
Lemma drain_reaches {A : Type} (order l : list A) (k : nat) :
  l ≡ₚ order -> exists choice, drain choice k (length l) l = order.
Proof.
  revert l k. induction order as [|x order IH]; intros l k Hperm.
  - apply Permutation_nil_r in Hperm as ->. exists (fun _ => 0%nat). reflexivity.
  - assert (x ∈ l) as Hx by (rewrite Hperm; apply list_elem_of_here).
    apply list_elem_of_lookup in Hx as [j Hj].
    assert (delete j l ≡ₚ order) as Hrest.
    { apply (Permutation_cons_inv (a := x)).
      rewrite <- (delete_Permutation l j x Hj). exact Hperm. }
    destruct (IH (delete j l) (S k) Hrest) as [choice' Hchoice'].
    exists (fun n => if decide (n = k) then j else choice' n).
    assert (j < length l)%nat as Hlt by (eapply lookup_lt_Some, Hj).
    destruct (length l) as [|fuel] eqn:Hlen; [lia|].
    simpl. rewrite decide_True by reflexivity.
    rewrite Nat.mod_small by lia. rewrite Hj. f_equal.
    rewrite <- Hchoice', length_delete, Hlen by eauto.
    simpl. rewrite Nat.sub_0_r.
    apply drain_ext. intros n Hn. rewrite decide_False by lia. reflexivity.
Qed.

Lemma completion_order_reaches {A : Type} (order l : list A) :
  l ≡ₚ order -> exists choice, completion_order choice l = order.
Proof. apply drain_reaches. Qed.

(** *** Dispatch *)

Lemma dispatch_length first providers requests :
  length (dispatch first providers requests) = length requests.
Proof. apply length_imap. Qed.

Lemma dispatch_lookup first providers requests i j :
  dispatch first providers requests !! i = Some j ->
  job_index j = i /\
  job_provider j = (i mod length providers)%nat /\
  job_config j = nth (i mod length providers) providers first.
Proof.
  unfold dispatch. rewrite list_lookup_imap.
  destruct (requests !! i); simpl; [|discriminate].
  intros H. injection H as <-. auto.
Qed.

Lemma dispatch_round_robin first providers requests j :
  j ∈ dispatch first providers requests ->
  job_provider j = (job_index j mod length providers)%nat /\
  job_config j = nth (job_index j mod length providers) providers first.
Proof.
  intros Hj. apply list_elem_of_lookup in Hj as [i Hi].
  apply dispatch_lookup in Hi as (-> & ? & ?). auto.
Qed.

Lemma dispatch_config_configured first rest requests j :
  j ∈ dispatch first (first :: rest) requests ->
  job_config j ∈ first :: rest.
Proof.
  intros Hj. apply dispatch_round_robin in Hj as [_ ->].
  rewrite nth_lookup.
  destruct ((first :: rest) !! _) as [p|] eqn:E; simpl.
  - eapply list_elem_of_lookup_2, E.
  - apply list_elem_of_here.
Qed.

Lemma invocations_of_dispatch first providers requests :
  (fun j => TransportInvoked (job_index j) (job_provider j))
    <$> dispatch first providers requests =
  imap (fun i _ => TransportInvoked i (i mod length providers)) requests.
Proof.
  unfold dispatch. rewrite fmap_imap. apply imap_ext. reflexivity.
Qed.

(** *** Records and notifications *)

Lemma record_provider_name test_mode j :
  RequestMetrics.provider_name (record W test_mode j) = key_of (job_config j).
Proof. unfold record. destruct (outcome W test_mode j); reflexivity. Qed.

Lemma record_counts test_mode j :
  let m := record W test_mode j in
  RequestMetrics.total_tokens m =
    RequestMetrics.prompt_tokens m + RequestMetrics.completion_tokens m /\
  0 <= RequestMetrics.prompt_tokens m /\
  0 <= RequestMetrics.completion_tokens m /\
  0 <= RequestMetrics.total_tokens m /\
  0 <= RequestMetrics.request_bytes m /\
  0 <= RequestMetrics.response_bytes m.
Proof.
  cbv zeta. unfold record.
  destruct (outcome W test_mode j) as [e|u]; simpl; lia.
Qed.

Lemma record_failed test_mode j e :
  outcome W test_mode j = inl e ->
  record W test_mode j = RequestMetrics.mk (key_of (job_config j)) 0 0 0 0 0 0%Q.
Proof. intros H. unfold record. rewrite H. reflexivity. Qed.

Lemma notifications_sums test_mode total k finished :
  let calls := notifications W test_mode total k finished in
  let metrics := record W test_mode <$> finished in
  py_sum new_prompt_tokens calls = py_sum RequestMetrics.prompt_tokens metrics /\
  py_sum new_completion_tokens calls = py_sum RequestMetrics.completion_tokens metrics /\
  py_sum new_request_bytes calls = py_sum RequestMetrics.request_bytes metrics /\
  py_sum new_response_bytes calls = py_sum RequestMetrics.response_bytes metrics.
Proof.
  cbv zeta. revert k.
  induction finished as [|j finished IH]; intros k.
  - simpl. rewrite !py_sum_nil. auto.
  - simpl notifications. rewrite fmap_cons, !py_sum_app, !py_sum_cons.
    destruct (IH (S k)) as (-> & -> & -> & ->).
    generalize (record W test_mode <$> finished). intros ms.
    unfold record. destruct (outcome W test_mode j) as [e|u];
      rewrite ?py_sum_cons, ?py_sum_nil; simpl; lia.
Qed.

Lemma finished_jobs_perm args first rest :
  arg_providers args = first :: rest ->
  finished_jobs W args ≡ₚ dispatch first (first :: rest) (arg_requests args).
Proof.
  intros H. unfold finished_jobs. rewrite H. apply completion_order_perm.
Qed.

End Engine.

(** ** The breakdown sums to the metrics it was built from *)

Section BreakdownSum.

Import BatchProcessor.

Variable time_time : nat -> Q.
Variable metrics : list RequestMetrics.t.
Variable start : Q.

(** A field of the sub-aggregate and the per-metric quantity it sums. *)
Variable field : BatchRequestResult.t -> Z.
Variable g : RequestMetrics.t -> Z.
Hypothesis field_sums : forall l now, field (provider_result l now start) = py_sum g l.

Implicit Types (d : gmap string BatchRequestResult.t).

Local Abbreviation covered := (covered metrics).
Local Abbreviation sums_its_metrics := (sums_its_metrics field g metrics).

Lemma covered_insert_fresh d k v :
  d !! k = None ->
  py_sum g (covered (<[k := v]> d)) =
  py_sum g (metrics_of k metrics) + py_sum g (covered d).
Proof.
  intros Hk. unfold covered, metrics_of.
  induction metrics as [|m ms IH]; [reflexivity|].
  rewrite !filter_cons.
  destruct (decide (RequestMetrics.provider_name m = k)) as [Hm|Hm].
  - rewrite decide_True by (rewrite Hm, lookup_insert_eq; eauto).
    rewrite (decide_False (P := is_Some (d !! _)))
      by (rewrite Hm, Hk; apply is_Some_None).
    rewrite !py_sum_cons, IH. lia.
  - destruct (decide (is_Some (d !! RequestMetrics.provider_name m))) as [Hd|Hd].
    + rewrite decide_True by (rewrite lookup_insert_ne by congruence; exact Hd).
      rewrite !py_sum_cons, IH. lia.
    + rewrite decide_False by (rewrite lookup_insert_ne by congruence; exact Hd).
      exact IH.
Qed.

Lemma covered_insert_known d k v v' :
  d !! k = Some v' -> covered (<[k := v]> d) = covered d.
Proof.
  intros Hk. unfold covered. apply list_filter_iff. intros m.
  destruct (decide (k = RequestMetrics.provider_name m)) as [<-|Hm].
  - rewrite lookup_insert_eq, Hk. split; eauto.
  - rewrite lookup_insert_ne by exact Hm. reflexivity.
Qed.

Lemma dict_sum_overwrite d k v v' :
  d !! k = Some v' -> field v = field v' ->
  dict_sum field (<[k := v]> d) = dict_sum field d.
Proof.
  intros Hk Hf.
  rewrite <- (insert_delete_id d k v' Hk) at 2.
  rewrite <- (insert_delete_eq d k v).
  rewrite !dict_sum_insert by apply lookup_delete_eq. lia.
Qed.

Lemma sums_its_metrics_empty : sums_its_metrics ∅.
Proof.
  split.
  - rewrite dict_sum_empty. unfold covered.
    induction metrics as [|m ms IH]; [reflexivity|].
    rewrite filter_cons, decide_False; [exact IH|].
    rewrite lookup_empty. apply is_Some_None.
  - intros k v H. rewrite lookup_empty in H. discriminate.
Qed.

Lemma sums_its_metrics_insert d k now :
  sums_its_metrics d ->
  sums_its_metrics (<[k := provider_result (metrics_of k metrics) now start]> d).
Proof.
  intros [Hsum Hentries]. split.
  - destruct (d !! k) as [v'|] eqn:Hk.
    + rewrite (dict_sum_overwrite d k _ v' Hk)
        by (rewrite field_sums; symmetry; apply Hentries, Hk).
      rewrite (covered_insert_known d k _ v' Hk). exact Hsum.
    + rewrite dict_sum_insert by exact Hk.
      rewrite covered_insert_fresh by exact Hk.
      rewrite field_sums, Hsum. reflexivity.
  - intros k' v. destruct (decide (k = k')) as [<-|Hne].
    + rewrite lookup_insert_eq. intros H. injection H as <-. apply field_sums.
    + rewrite lookup_insert_ne by exact Hne. apply Hentries.
Qed.

Lemma loop_sums_its_metrics ps d n :
  sums_its_metrics d ->
  sums_its_metrics (fold_left (provider_step time_time metrics start) ps (d, n)).1.
Proof.
  revert d n. induction ps as [|p ps IH]; intros d n Hd; [exact Hd|].
  rewrite fold_left_step.
  destruct (decide (metrics_of (provider_key p) metrics = [])) as [He|He].
  - rewrite provider_step_skip by exact He. apply IH, Hd.
  - rewrite provider_step_insert by exact He. apply IH, sums_its_metrics_insert, Hd.
Qed.

(** When every metric carries the key of one of the providers, the entries
    cover all of them. *)
Lemma loop_covers_all ps n :
  (forall m, m ∈ metrics ->
     exists p, p ∈ ps /\ provider_key p = RequestMetrics.provider_name m) ->
  dict_sum field (fold_left (provider_step time_time metrics start) ps (∅, n)).1 =
  py_sum g metrics.
Proof.
  intros Hall.
  destruct (loop_sums_its_metrics ps ∅ n sums_its_metrics_empty) as [-> _].
  f_equal. apply filter_all. intros m Hm.
  destruct (Hall m Hm) as (p & Hp & Hk).
  assert (metrics_of (provider_key p) metrics <> []) as Hne.
  { intros He.
    assert (m ∈ metrics_of (provider_key p) metrics) as Hin
      by (apply metrics_of_spec; auto).
    rewrite He in Hin. inversion Hin. }
  destruct (loop_present time_time metrics start p ps n Hp Hne) as [now Hnow].
  rewrite <- Hk, Hnow. eauto.
Qed.

End BreakdownSum.

(** ** Results of the wrapper over the modelled engine *)

Section Composite.

Import BatchProcessor.

Variable time_time : nat -> Q.
Variable W : Native.World.

Implicit Types (self : BatchProcessor.t) (requests : list Request).

Lemma configured_cons self :
  configured W self = true -> exists first rest, providers self = first :: rest.
Proof.
  unfold configured. intros H.
  destruct (providers self) as [|first rest]; [discriminate | eauto].
Qed.

(** What a returned result of the composite is made of. *)
Lemma run_batch_returns self requests show_progress r :
  run_batch time_time W self requests show_progress = Return r ->
  exists first rest,
    providers self = first :: rest /\
    configured W self = true /\
    let args := {| arg_providers := provider_tuple <$> providers self;
                   arg_requests := requests;
                   arg_test_mode := test_mode first;
                   arg_tokens_per_minute := tokens_per_minute first |} in
    let metrics := BatchRequestResult.metrics r in
    metrics = Native.record W (test_mode first) <$> Native.finished_jobs W args /\
    BatchRequestResult.total_requests r = py_len metrics /\
    BatchRequestResult.prompt_tokens r = py_sum RequestMetrics.prompt_tokens metrics /\
    BatchRequestResult.completion_tokens r =
      py_sum RequestMetrics.completion_tokens metrics /\
    BatchRequestResult.total_tokens r =
      BatchRequestResult.prompt_tokens r + BatchRequestResult.completion_tokens r /\
    BatchRequestResult.total_request_bytes r = py_sum RequestMetrics.request_bytes metrics /\
    BatchRequestResult.total_response_bytes r =
      py_sum RequestMetrics.response_bytes metrics /\
    exists n,
      BatchRequestResult.provider_metrics r =
      (fold_left (provider_step time_time metrics (time_time 0)) (providers self) (∅, n)).1.
Proof.
  intros Hrun. unfold run_batch in Hrun.
  destruct (process_batch_returns _ _ _ _ _ _ Hrun) as (args & ms & Hargs & Hret & Hr).
  destruct (engine_args_returns _ _ _ Hargs) as (first & rest & Hps & ->).
  exists first, rest. split; [exact Hps|].
  unfold Native.process_requests_multi in Hret, Hr. simpl arg_providers in Hret, Hr.
  fold (configured W self) in Hret, Hr.
  destruct (configured W self) eqn:Hcfg; [|discriminate].
  split; [reflexivity|].
  simpl in Hret. injection Hret as <-.
  cbv zeta in Hr. simpl progress_calls in Hr.
  match type of Hr with context [Native.notifications ?w ?tm ?tot ?k ?fin] =>
    destruct (notifications_sums w tm tot k fin) as (Np & Nc & Nq & Ns);
    set (calls := Native.notifications w tm tot k fin) in *
  end.
  destruct (update_progress_fold self calls initial_locals) as (Hp & Hc & Hq & Hs & _ & Ht).
  cbv zeta in Np, Nc, Nq, Ns, Hp, Hc, Hq, Hs, Ht.
  simpl in Hp, Hc, Hq, Hs.
  subst r. cbv zeta. simpl.
  split; [reflexivity|]. split; [reflexivity|].
  split; [rewrite Hp, Np; reflexivity|].
  split; [rewrite Hc, Nc; reflexivity|].
  split; [apply Ht; reflexivity|].
  split; [rewrite Hq, Nq; reflexivity|].
  split; [rewrite Hs, Ns; reflexivity|].
  eexists. reflexivity.
Qed.

(** Every returned metric carries the key of a configured provider. *)
Lemma run_batch_metrics_keyed self requests show_progress r m :
  run_batch time_time W self requests show_progress = Return r ->
  m ∈ BatchRequestResult.metrics r ->
  metric_well_formed m /\
  exists p, p ∈ providers self /\ provider_key p = RequestMetrics.provider_name m.
Proof.
  intros Hrun Hm.
  destruct (run_batch_returns _ _ _ _ Hrun) as (first & rest & Hps & _ & Hms & _).
  cbv zeta in Hms. rewrite Hms in Hm.
  apply list_elem_of_fmap in Hm as (j & -> & Hj).
  split; [apply record_counts|].
  rewrite record_provider_name.
  rewrite (finished_jobs_perm W _ (provider_tuple first) (provider_tuple <$> rest)) in Hj
    by (simpl; rewrite Hps; reflexivity).
  apply dispatch_config_configured in Hj.
  change (provider_tuple first :: (provider_tuple <$> rest))
    with (provider_tuple <$> first :: rest) in Hj.
  apply list_elem_of_fmap in Hj as (p & -> & Hp).
  exists p. rewrite Hps. split; [exact Hp | reflexivity].
Qed.

End Composite.

(** ** Aggregates of a batch *)

Section Aggregates.

Import BatchProcessor.

Variable time_time : nat -> Q.
Variable W : Native.World.

Implicit Types (self : BatchProcessor.t) (requests : list Request).

(** A batch without configuration failure returns. *)
Lemma run_batch_total self requests show_progress :
  configured W self = true ->
  exists r, run_batch time_time W self requests show_progress = Return r.
Proof.
  intros Hcfg. destruct (configured_cons W self Hcfg) as (first & rest & Hps).
  unfold run_batch, process_batch, engine_args.
  replace (py_getitem (providers self) 0) with (Return first)
    by (rewrite Hps; reflexivity).
  simpl mbind. unfold mbind, py_bind, mret, py_ret.
  unfold Native.process_requests_multi. simpl arg_providers.
  fold (configured W self). rewrite Hcfg.
  cbn [returned progress_calls arg_test_mode arg_requests].
  match goal with
  | |- context [fold_left ?f (providers self) ?a] =>
      destruct (fold_left f (providers self) a) as [d n]
  end.
  eauto.
Qed.

Lemma provider_result_well_formed (l : list RequestMetrics.t) (now start : Q) :
  Forall metric_well_formed l -> result_well_formed (provider_result l now start).
Proof.
  intros Hl. unfold result_well_formed. simpl.
  assert (forall f : RequestMetrics.t -> Z,
            (forall m, metric_well_formed m -> 0 <= f m) -> 0 <= py_sum f l) as Hpos.
  { intros f Hf. apply py_sum_nonneg. eapply Forall_impl; [exact Hl | exact Hf]. }
  rewrite py_sum_plus.
  pose proof (Hpos RequestMetrics.prompt_tokens) as H1.
  pose proof (Hpos RequestMetrics.completion_tokens) as H2.
  pose proof (Hpos RequestMetrics.request_bytes) as H3.
  pose proof (Hpos RequestMetrics.response_bytes) as H4.
  unfold metric_well_formed in H1, H2, H3, H4.
  lapply H1; [clear H1; intros H1 | intros; lia].
  lapply H2; [clear H2; intros H2 | intros; lia].
  lapply H3; [clear H3; intros H3 | intros; lia].
  lapply H4; [clear H4; intros H4 | intros; lia].
  lia.
Qed.

Lemma provider_result_no_tokens (l : list RequestMetrics.t) (now start : Q) :
  Forall (fun m => RequestMetrics.prompt_tokens m = 0 /\
                   RequestMetrics.completion_tokens m = 0 /\
                   RequestMetrics.request_bytes m = 0 /\
                   RequestMetrics.response_bytes m = 0) l ->
  no_tokens_no_bytes (provider_result l now start).
Proof.
  intros Hl. unfold no_tokens_no_bytes. simpl.
  repeat split; apply py_sum_zero; eapply Forall_impl; try exact Hl;
    simpl; intros m Hm; lia.
Qed.

(** C3: in every result of a batch, the entries of [provider_metrics] add up
    to the overall aggregate, in each of [total_requests], [total_tokens],
    [prompt_tokens], [completion_tokens], [total_request_bytes] and
    [total_response_bytes]. *)
Theorem breakdown_sums_to_overall self requests show_progress r :
  run_batch time_time W self requests show_progress = Return r ->
  let breakdown := BatchRequestResult.provider_metrics r in
  dict_sum BatchRequestResult.total_requests breakdown =
    BatchRequestResult.total_requests r /\
  dict_sum BatchRequestResult.total_tokens breakdown =
    BatchRequestResult.total_tokens r /\
  dict_sum BatchRequestResult.prompt_tokens breakdown =
    BatchRequestResult.prompt_tokens r /\
  dict_sum BatchRequestResult.completion_tokens breakdown =
    BatchRequestResult.completion_tokens r /\
  dict_sum BatchRequestResult.total_request_bytes breakdown =
    BatchRequestResult.total_request_bytes r /\
  dict_sum BatchRequestResult.total_response_bytes breakdown =
    BatchRequestResult.total_response_bytes r.
Proof.
  intros Hrun.
  pose proof (fun m Hm =>
    proj2 (run_batch_metrics_keyed time_time W _ _ _ _ m Hrun Hm)) as Hkeyed.
  destruct (run_batch_returns _ _ _ _ _ _ Hrun)
    as (first & rest & _ & _ & _ & Hn & Hp & Hc & Ht & Hq & Hs & n & Hd).
  cbv zeta in *. rewrite Hd.
  pose proof (fun field g Hfg =>
    loop_covers_all time_time (BatchRequestResult.metrics r) (time_time 0)
      field g Hfg (providers self) n Hkeyed) as Hsum.
  split; [|split; [|split; [|split; [|split]]]].
  - rewrite (Hsum _ (fun _ => 1)) by (intros; apply eq_sym, py_sum_ones).
    rewrite py_sum_ones. symmetry. exact Hn.
  - rewrite (Hsum _ (fun m => RequestMetrics.prompt_tokens m
                              + RequestMetrics.completion_tokens m))
      by reflexivity.
    rewrite py_sum_plus. lia.
  - rewrite (Hsum _ RequestMetrics.prompt_tokens) by reflexivity. lia.
  - rewrite (Hsum _ RequestMetrics.completion_tokens) by reflexivity. lia.
  - rewrite (Hsum _ RequestMetrics.request_bytes) by reflexivity. lia.
  - rewrite (Hsum _ RequestMetrics.response_bytes) by reflexivity. lia.
Qed.

(** C5: in every result of a batch, every metric has
    [total_tokens = prompt_tokens + completion_tokens] and non-negative token
    and byte counts, and so have the overall aggregate and every entry of
    the per-provider breakdown. *)
Theorem token_and_byte_invariants self requests show_progress r :
  run_batch time_time W self requests show_progress = Return r ->
  (forall m, m ∈ BatchRequestResult.metrics r -> metric_well_formed m) /\
  result_well_formed r /\
  (forall k v, BatchRequestResult.provider_metrics r !! k = Some v ->
     result_well_formed v /\
     forall m, m ∈ BatchRequestResult.metrics v -> metric_well_formed m).
Proof.
  intros Hrun.
  assert (forall m, m ∈ BatchRequestResult.metrics r -> metric_well_formed m) as Hwf.
  { intros m Hm. eapply run_batch_metrics_keyed; eassumption. }
  destruct (run_batch_returns _ _ _ _ _ _ Hrun)
    as (first & rest & _ & _ & _ & _ & Hp & Hc & Ht & Hq & Hs & n & Hd).
  cbv zeta in *.
  assert (forall f : RequestMetrics.t -> Z,
            (forall m, metric_well_formed m -> 0 <= f m) ->
            0 <= py_sum f (BatchRequestResult.metrics r)) as Hpos.
  { intros f Hf. apply py_sum_nonneg, Forall_forall. intros m Hm. apply Hf, Hwf, Hm. }
  assert (forall k, Forall metric_well_formed
                      (metrics_of k (BatchRequestResult.metrics r))) as Hsub.
  { intros k. apply Forall_forall. intros m Hm.
    apply metrics_of_spec in Hm as [Hm _]. apply Hwf, Hm. }
  split; [exact Hwf|]. split.
  - unfold result_well_formed. rewrite Ht, Hp, Hc, Hq, Hs.
    split; [reflexivity|].
    assert (0 <= py_sum RequestMetrics.prompt_tokens (BatchRequestResult.metrics r))
      by (apply Hpos; unfold metric_well_formed; intros; lia).
    assert (0 <= py_sum RequestMetrics.completion_tokens (BatchRequestResult.metrics r))
      by (apply Hpos; unfold metric_well_formed; intros; lia).
    repeat split; try lia; apply Hpos; unfold metric_well_formed; intros; lia.
  - intros k v Hkv. rewrite Hd in Hkv.
    apply loop_entry in Hkv as [Hkv|(p & now & _ & _ & _ & ->)].
    + rewrite lookup_empty in Hkv. discriminate.
    + split; [apply provider_result_well_formed, Hsub|].
      simpl. intros m Hm. eapply Forall_forall; [apply Hsub | exact Hm].
Qed.

(** C6: when every exchange fails, a batch without configuration failure
    still returns; its [total_requests] is the number of requests submitted,
    its token and byte sums are zero, and every entry of its per-provider
    breakdown has zero token and byte sums. *)
Theorem all_failures_still_aggregate self requests show_progress :
  configured W self = true ->
  transport_down W ->
  exists r,
    run_batch time_time W self requests show_progress = Return r /\
    BatchRequestResult.total_requests r = py_len requests /\
    no_tokens_no_bytes r /\
    (forall k v, BatchRequestResult.provider_metrics r !! k = Some v ->
                 no_tokens_no_bytes v).
Proof.
  intros Hcfg Hdown.
  destruct (run_batch_total self requests show_progress Hcfg) as [r Hrun].
  exists r. split; [exact Hrun|].
  destruct (run_batch_returns _ _ _ _ _ _ Hrun)
    as (first & rest & Hps & _ & Hms & Hn & Hp & Hc & Ht & Hq & Hs & n & Hd).
  cbv zeta in *.
  assert (Forall (fun m => RequestMetrics.prompt_tokens m = 0 /\
                           RequestMetrics.completion_tokens m = 0 /\
                           RequestMetrics.request_bytes m = 0 /\
                           RequestMetrics.response_bytes m = 0)
                 (BatchRequestResult.metrics r)) as Hzero.
  { rewrite Hms. apply Forall_fmap, Forall_forall. intros j _. simpl.
    destruct (Hdown (Native.job_index j) (Native.job_config j)
                    (Native.job_request j) (test_mode first)) as [e He].
    rewrite (record_failed W _ j e He). simpl. auto. }
  split; [|split].
  - rewrite Hn, Hms. unfold py_len. f_equal.
    rewrite length_fmap.
    erewrite Permutation_length; [apply dispatch_length|].
    apply finished_jobs_perm. simpl. rewrite Hps. reflexivity.
  - unfold no_tokens_no_bytes. rewrite Ht, Hp, Hc, Hq, Hs.
    assert (forall f : RequestMetrics.t -> Z,
              (forall m, RequestMetrics.prompt_tokens m = 0 /\
                         RequestMetrics.completion_tokens m = 0 /\
                         RequestMetrics.request_bytes m = 0 /\
                         RequestMetrics.response_bytes m = 0 -> f m = 0) ->
              py_sum f (BatchRequestResult.metrics r) = 0) as Hsum.
    { intros f Hf. apply py_sum_zero. eapply Forall_impl; [exact Hzero | exact Hf]. }
    rewrite !Hsum by (intros; lia). auto.
  - intros k v Hkv. rewrite Hd in Hkv.
    apply loop_entry in Hkv as [Hkv|(p & now & _ & _ & _ & ->)].
    + rewrite lookup_empty in Hkv. discriminate.
    + apply provider_result_no_tokens.
      apply Forall_forall. intros m Hm.
      apply metrics_of_spec in Hm as [Hm _].
      eapply Forall_forall in Hzero; eassumption.
Qed.

End Aggregates.

(** ** Dispatch *)

Lemma filter_fmap_none {A B : Type} (P : B -> Prop) `{!forall b, Decision (P b)}
    (f : A -> B) (l : list A) :
  (forall a, ~ P (f a)) -> filter P (f <$> l) = [].
Proof.
  intros HP. induction l as [|a l IH]; [reflexivity|].
  rewrite fmap_cons, filter_cons_False by apply HP. exact IH.
Qed.

Lemma same_but_limit_tuple (p q : ProviderConfig) :
  same_but_limit p q -> BatchProcessor.provider_tuple p = BatchProcessor.provider_tuple q.
Proof.
  intros (Hn & Ha & Hc & Hu & _). unfold BatchProcessor.provider_tuple.
  rewrite Hn, Ha, Hc, Hu. reflexivity.
Qed.

Lemma same_but_limit_key (p q : ProviderConfig) :
  same_but_limit p q -> BatchProcessor.provider_key p = BatchProcessor.provider_key q.
Proof.
  intros (Hn & _ & _ & Hu & _). unfold BatchProcessor.provider_key.
  rewrite Hn, Hu. reflexivity.
Qed.

Lemma same_but_limit_tuples (ps qs : list ProviderConfig) :
  Forall2 same_but_limit ps qs ->
  BatchProcessor.provider_tuple <$> ps = BatchProcessor.provider_tuple <$> qs.
Proof.
  induction 1 as [|p q ps qs Hpq _ IH]; [reflexivity|].
  rewrite !fmap_cons, IH, (same_but_limit_tuple p q Hpq). reflexivity.
Qed.

Lemma provider_loop_same_keys (time_time : nat -> Q) (metrics : list RequestMetrics.t)
    (start : Q) (ps qs : list ProviderConfig) acc :
  Forall2 same_but_limit ps qs ->
  fold_left (BatchProcessor.provider_step time_time metrics start) ps acc =
  fold_left (BatchProcessor.provider_step time_time metrics start) qs acc.
Proof.
  intros H. revert acc. induction H as [|p q ps qs Hpq _ IH]; intros acc; [reflexivity|].
  rewrite !fold_left_step, IH. f_equal.
  unfold BatchProcessor.provider_step. destruct acc as [d n].
  rewrite (same_but_limit_key p q Hpq). reflexivity.
Qed.

Section Events.

Import BatchProcessor.

Implicit Types (self : BatchProcessor.t) (requests : list Request).

Lemma engine_args_cons self requests first rest :
  providers self = first :: rest ->
  engine_args self requests =
  Return {| arg_providers := provider_tuple <$> providers self;
            arg_requests := requests;
            arg_test_mode := test_mode first;
            arg_tokens_per_minute := tokens_per_minute first |}.
Proof.
  intros Hps. unfold engine_args.
  replace (py_getitem (providers self) 0) with (Return first)
    by (rewrite Hps; reflexivity).
  reflexivity.
Qed.

Lemma batch_events_configured (W : Native.World) self requests first rest :
  providers self = first :: rest ->
  configured W self = true ->
  batch_events W self requests =
  Native.BudgetCreated (tokens_per_minute first)
  :: imap (fun i _ => Native.TransportInvoked i (i mod length (providers self))) requests
  ++ ((fun j => Native.Finished (Native.job_index j)
                  (Native.succeeded W (test_mode first) j))
        <$> Native.finished_jobs W
              {| arg_providers := provider_tuple <$> providers self;
                 arg_requests := requests;
                 arg_test_mode := test_mode first;
                 arg_tokens_per_minute := tokens_per_minute first |}).
Proof.
  intros Hps Hcfg. unfold batch_events.
  rewrite (engine_args_cons self requests first rest Hps).
  unfold Native.events.
  cbn [arg_providers arg_requests arg_test_mode arg_tokens_per_minute].
  fold (configured W self). rewrite Hcfg.
  destruct (provider_tuple <$> providers self) as [|t ts] eqn:Hts.
  { rewrite Hps in Hts. discriminate. }
  rewrite invocations_of_dispatch.
  rewrite <- Hts, length_fmap. reflexivity.
Qed.

Lemma fold_left_ext {A B : Type} (f g : A -> B -> A) (l : list B) (a : A) :
  (forall a b, f a b = g a b) -> fold_left f l a = fold_left g l a.
Proof.
  intros Hfg. revert a. induction l as [|b l IH]; intros a; [reflexivity|].
  rewrite !fold_left_step, Hfg. apply IH.
Qed.

(** The result depends on the instance only through the engine's arguments,
    the callback flag and the keys of the providers. *)
Lemma process_batch_same_keys (time_time : nat -> Q) (engine : Engine)
    self self' requests show_progress :
  engine_args self' requests = engine_args self requests ->
  _progress_callback self' = _progress_callback self ->
  Forall2 same_but_limit (providers self') (providers self) ->
  process_batch time_time engine self' requests show_progress =
  process_batch time_time engine self requests show_progress.
Proof.
  intros Hargs Hcb Hps. unfold process_batch. rewrite Hargs.
  destruct (engine_args self requests) as [args|e]; [|reflexivity].
  simpl mbind. unfold mbind, py_bind.
  destruct (returned (engine args)) as [ms|e]; [|reflexivity].
  rewrite (fold_left_ext (update_progress self') (update_progress self))
    by (intros st c; unfold update_progress; rewrite Hcb; reflexivity).
  generalize (fold_left (update_progress self) (progress_calls (engine args))
                        initial_locals).
  intros st.
  rewrite (provider_loop_same_keys time_time ms (time_time 0%nat) _ _ _ Hps).
  reflexivity.
Qed.

End Events.

Section Dispatch.

Import BatchProcessor.

Variable time_time : nat -> Q.
Variable W : Native.World.

Implicit Types (self : BatchProcessor.t) (requests : list Request).

(** C1: in a batch without configuration failure, the transport is invoked
    exactly once per request, for the i-th request in submission order at
    the provider in position [i mod P]; these invocations are the same in
    every world, whatever the outcomes and the completion order; and the
    metrics returned, in whatever order, attribute to each request the key
    of the provider at that position. *)
Theorem round_robin_dispatch self requests :
  configured W self = true ->
  let P := length (providers self) in
  let invocations := filter Native.is_invocation (batch_events W self requests) in
  invocations = imap (fun i _ => Native.TransportInvoked i (i mod P)) requests /\
  length invocations = length requests /\
  (forall W', configured W' self = true ->
     filter Native.is_invocation (batch_events W' self requests) = invocations) /\
  (forall show_progress r,
     run_batch time_time W self requests show_progress = Return r ->
     RequestMetrics.provider_name <$> BatchRequestResult.metrics r
     ≡ₚ imap (fun i _ => from_option provider_key "" (providers self !! (i mod P)%nat))
             requests).
Proof.
  intros Hcfg. cbv zeta.
  assert (forall W', configured W' self = true ->
            filter Native.is_invocation (batch_events W' self requests) =
            imap (fun i _ => Native.TransportInvoked i (i mod length (providers self)))
                 requests) as Hinv.
  { intros W' Hcfg'.
    destruct (configured_cons W' self Hcfg') as (first & rest & Hps).
    rewrite (batch_events_configured W' self requests first rest Hps Hcfg').
    rewrite filter_cons_False by (simpl; tauto).
    rewrite filter_app.
    rewrite (filter_fmap_none _ _ (Native.finished_jobs _ _)) by (intros j; simpl; tauto).
    rewrite app_nil_r.
    apply filter_all. intros e He.
    apply elem_of_lookup_imap in He as (i & x & -> & _). exact I. }
  split; [apply Hinv, Hcfg|].
  split; [rewrite (Hinv W Hcfg); apply length_imap|].
  split; [intros W' Hcfg'; rewrite (Hinv W Hcfg); apply Hinv, Hcfg'|].
  intros show_progress r Hrun.
  destruct (run_batch_returns _ _ _ _ _ _ Hrun) as (first & rest & Hps & _ & Hms & _).
  cbv zeta in Hms. rewrite Hms, <- list_fmap_compose.
  rewrite (finished_jobs_perm W _ (provider_tuple first) (provider_tuple <$> rest))
    by (simpl; rewrite Hps; reflexivity).
  unfold Native.dispatch. rewrite fmap_imap.
  erewrite imap_ext; [reflexivity|].
  intros i x _. unfold compose.
  rewrite record_provider_name. unfold Native.assign. cbn [Native.job_config].
  change (provider_tuple first :: (provider_tuple <$> rest))
    with (provider_tuple <$> first :: rest).
  rewrite <- Hps, length_fmap, nth_lookup, list_lookup_fmap.
  assert ((i mod length (providers self))%nat < length (providers self))%nat as Hlt.
  { apply Nat.mod_upper_bound. rewrite Hps. discriminate. }
  destruct (lookup_lt_is_Some_2 _ _ Hlt) as [p Hp]. rewrite Hp. reflexivity.
Qed.

(** C2: in a batch with a non-empty provider list (and no configuration
    failure), exactly one rate budget is created, from the first provider's
    [tokens_per_minute]; replacing the other providers by configurations
    that differ from them only in [tokens_per_minute] changes neither the
    arguments the engine receives, nor its events, nor the result. *)
Theorem one_budget_from_first_provider self requests first rest :
  providers self = first :: rest ->
  configured W self = true ->
  filter Native.is_budget (batch_events W self requests) =
    [Native.BudgetCreated (tokens_per_minute first)] /\
  forall rest',
    Forall2 same_but_limit rest rest' ->
    let self' := {| providers := first :: rest';
                    _progress_callback := _progress_callback self |} in
    engine_args self' requests = engine_args self requests /\
    batch_events W self' requests = batch_events W self requests /\
    forall show_progress,
      run_batch time_time W self' requests show_progress =
      run_batch time_time W self requests show_progress.
Proof.
  intros Hps Hcfg. split.
  - rewrite (batch_events_configured W self requests first rest Hps Hcfg).
    rewrite filter_cons_True by exact I.
    rewrite filter_app.
    rewrite (filter_fmap_none _ _ (Native.finished_jobs _ _)) by (intros j; simpl; tauto).
    rewrite app_nil_r. f_equal.
    induction requests as [|x xs IH] using rev_ind; [reflexivity|].
    rewrite imap_app, filter_app, IH. simpl.
    rewrite filter_cons_False by (simpl; tauto). reflexivity.
  - intros rest' Hrest. cbv zeta.
    assert (engine_args {| providers := first :: rest';
                           _progress_callback := _progress_callback self |} requests =
            engine_args self requests) as Hargs.
    { unfold engine_args. rewrite Hps. simpl providers.
      rewrite !fmap_cons, (same_but_limit_tuples rest rest' Hrest). reflexivity. }
    split; [exact Hargs|].
    split; [unfold batch_events; rewrite Hargs; reflexivity|].
    intros show_progress. unfold run_batch.
    apply process_batch_same_keys; [exact Hargs | reflexivity |].
    rewrite Hps. cbn [providers].
    constructor; [repeat split|].
    clear -Hrest. induction Hrest as [|p q ps qs Hpq _ IH]; constructor; [|exact IH].
    destruct Hpq as (? & ? & ? & ? & ?). repeat split; congruence.
Qed.

End Dispatch.

(** ** The theorems at concrete batches *)

Section Instances.

Import BatchProcessor Examples.

Local Abbreviation engine := (Native.process_requests_multi world).

(** What [Examples.world] does with three requests over two providers: the
    request submitted second fails, and the metrics arrive in the order
    second, third, first. *)
Example two_ports_events :
  batch_events world two_ports three_requests =
  [Native.BudgetCreated (Some 1000);
   Native.TransportInvoked 0 0; Native.TransportInvoked 1 1; Native.TransportInvoked 2 0;
   Native.Finished 1 false; Native.Finished 2 true; Native.Finished 0 true].
Proof. reflexivity. Qed.

Example two_ports_result :
  match run_batch clock world two_ports three_requests false with
  | Return r =>
      BatchRequestResult.total_requests r = 3 /\
      BatchRequestResult.prompt_tokens r = 8 /\
      BatchRequestResult.completion_tokens r = 14 /\
      BatchRequestResult.total_tokens r = 22 /\
      BatchRequestResult.total_request_bytes r = 800 /\
      BatchRequestResult.total_response_bytes r = 560 /\
      RequestMetrics.provider_name <$> BatchRequestResult.metrics r =
        ["openai:http://h:8081"; "openai:http://h:8080"; "openai:http://h:8080"] /\
      (BatchRequestResult.total_requests
         <$> BatchRequestResult.provider_metrics r !! "openai:http://h:8080") = Some 2 /\
      (BatchRequestResult.total_tokens
         <$> BatchRequestResult.provider_metrics r !! "openai:http://h:8081") = Some 0
  | Raise _ => False
  end.
Proof. vm_compute. repeat split. Qed.

(** The same batch with the requests finishing in submission order: other
    order of the metrics, same attribution. *)
Example two_ports_result_in_order :
  match run_batch clock world_in_order two_ports three_requests false with
  | Return r =>
      RequestMetrics.provider_name <$> BatchRequestResult.metrics r =
        ["openai:http://h:8080"; "openai:http://h:8081"; "openai:http://h:8080"] /\
      BatchRequestResult.total_tokens r = 22
  | Raise _ => False
  end.
Proof. vm_compute. repeat split. Qed.

(** No provider: [self.providers[0]] raises before the engine is called. *)
Example no_provider_raises :
  run_batch clock world (__init__ (Many []) false) three_requests false = Raise IndexError /\
  batch_events world (__init__ (Many []) false) three_requests = [].
Proof. split; reflexivity. Qed.

(** An unknown provider name: the engine raises and dispatches nothing. *)
Example unknown_provider_raises :
  let self := __init__ (Single (provider "invalid" None None)) false in
  run_batch clock world self three_requests false = Raise ConfigurationError /\
  batch_events world self three_requests = [].
Proof. split; reflexivity. Qed.

(** The user's callback hears of the two successes. *)
Example two_ports_callback_calls :
  callback_calls engine two_ports three_requests = [(2, 3); (3, 3)].
Proof. reflexivity. Qed.

(** Three requests over two providers: positions 0, 1, 0. *)
Lemma round_robin_dispatch_two_ports :
  filter Native.is_invocation (batch_events world two_ports three_requests) =
  [Native.TransportInvoked 0 0; Native.TransportInvoked 1 1; Native.TransportInvoked 2 0].
Proof.
  destruct (round_robin_dispatch clock world two_ports three_requests eq_refl) as [H _].
  exact H.
Defined.

(** The budget of three providers limited to 1000, 600 and nothing is the
    first one's 1000, and other limits on the second and third change
    nothing. *)
Lemma one_budget_three_ports :
  filter Native.is_budget (batch_events world three_ports three_requests) =
    [Native.BudgetCreated (Some 1000)] /\
  run_batch clock world
    (__init__ (Many [port_8080;
                     provider "openai" (Some "http://h:8081") None;
                     provider "openai" (Some "http://h:8082") (Some 5)]) false)
    three_requests false =
  run_batch clock world three_ports three_requests false.
Proof.
  destruct (one_budget_from_first_provider clock world three_ports three_requests
              port_8080 [port_8081; port_8082] eq_refl eq_refl) as [Hbudget Hrest].
  split; [exact Hbudget|].
  destruct (Hrest [provider "openai" (Some "http://h:8081") None;
                   provider "openai" (Some "http://h:8082") (Some 5)])
    as (_ & _ & Hrun).
  - repeat constructor.
  - exact (Hrun false).
Defined.

Lemma breakdown_sums_two_defaults :
  exists r,
    run_batch clock world two_defaults three_requests false = Return r /\
    dict_sum BatchRequestResult.total_requests (BatchRequestResult.provider_metrics r) =
      BatchRequestResult.total_requests r /\
    dict_sum BatchRequestResult.total_tokens (BatchRequestResult.provider_metrics r) =
      BatchRequestResult.total_tokens r.
Proof.
  destruct (run_batch_total clock world two_defaults three_requests false eq_refl)
    as [r Hr].
  exists r. split; [exact Hr|].
  destruct (breakdown_sums_to_overall clock world two_defaults three_requests false r Hr)
    as (H1 & H2 & _).
  split; [exact H1 | exact H2].
Defined.

Lemma token_and_byte_invariants_two_ports :
  exists r,
    run_batch clock world two_ports three_requests false = Return r /\
    result_well_formed r.
Proof.
  destruct (run_batch_total clock world two_ports three_requests false eq_refl)
    as [r Hr].
  exists r. split; [exact Hr|].
  destruct (token_and_byte_invariants clock world two_ports three_requests false r Hr)
    as (_ & H & _).
  exact H.
Defined.

Lemma all_failures_two_ports :
  exists r,
    run_batch clock world_down two_ports three_requests false = Return r /\
    BatchRequestResult.total_requests r = 3 /\
    no_tokens_no_bytes r.
Proof.
  destruct (all_failures_still_aggregate clock world_down two_ports three_requests false
              eq_refl) as (r & Hr & Hn & Hz & _).
  - intros i p request test_mode. exists Native.ConnectionRefused. reflexivity.
  - exists r. split; [exact Hr|]. split; [exact Hn | exact Hz].
Defined.

Lemma two_ports_have_distinct_keys :
  provider_key port_8080 <> provider_key port_8081.
Proof.
  destruct (run_batch_total clock world two_ports three_requests false eq_refl)
    as [r Hr].
  destruct (breakdown_keyed_by_name_and_base_url clock engine two_ports three_requests
              false r Hr) as (_ & _ & _ & H).
  destruct (H port_8080 port_8081 "http://h:8080" "http://h:8081") as [Hne _].
  - apply list_elem_of_here.
  - apply list_elem_of_further, list_elem_of_here.
  - reflexivity.
  - reflexivity.
  - reflexivity.
  - discriminate.
  - exact Hne.
Defined.

(** Two requests over three providers: the third provider gets none. *)
Lemma third_port_has_no_entry :
  exists r,
    process_batch clock engine three_ports [hello; hello] false = Return r /\
    BatchRequestResult.provider_metrics r !! provider_key port_8082 = None.
Proof.
  eexists. split; [reflexivity|].
  eapply proj1.
  eapply (no_entry_without_completed_requests clock engine three_ports [hello; hello]
            false _ port_8082).
  - reflexivity.
  - apply list_elem_of_further, list_elem_of_further, list_elem_of_here.
  - reflexivity.
Defined.

Lemma two_defaults_share_a_key :
  provider_key default_a = "openai:None" /\
  provider_key default_b = provider_key default_a.
Proof.
  destruct (run_batch_total clock world two_defaults three_requests false eq_refl)
    as [r Hr].
  destruct (unset_base_url_key_is_name_colon_None clock engine two_defaults
              three_requests false r default_a default_b Hr) as (H1 & H2 & _).
  - apply list_elem_of_here.
  - apply list_elem_of_further, list_elem_of_further, list_elem_of_here.
  - reflexivity.
  - reflexivity.
  - reflexivity.
  - split; [exact H1 | exact H2].
Defined.

End Instances.

(** ** Further properties of the wrapper, over any engine *)

Section Exceptions.

Import BatchProcessor.

Variable time_time : nat -> Q.
Variable engine : Engine.

Implicit Types (self : BatchProcessor.t) (requests : list Request).

Lemma engine_args_raises self requests e :
  engine_args self requests = Raise e <-> providers self = [] /\ e = IndexError.
Proof.
  unfold engine_args, py_getitem.
  destruct (providers self) as [|first rest]; simpl.
  - split; [intros H; injection H as <-; auto | intros [_ ->]; reflexivity].
  - split; [discriminate | intros [? _]; discriminate].
Qed.

Lemma callback_log_fold self calls st :
  callback_log (fold_left (update_progress self) calls st) =
  (callback_log st ++
   (if _progress_callback self then (fun c => (completed c, total c)) <$> calls else []))%list.
Proof.
  revert st. induction calls as [|c calls IH]; intros st.
  - simpl. destruct (_progress_callback self); rewrite app_nil_r; reflexivity.
  - rewrite fold_left_step, IH. unfold update_progress at 1. cbn [callback_log].
    destruct (_progress_callback self); [|reflexivity].
    rewrite fmap_cons, <- app_assoc. reflexivity.
Qed.

(** X1: [process_batch] raises in exactly two ways: [IndexError] from
    [self.providers[0]] when the provider list is empty, whatever the
    requests and the engine, and otherwise the engine's own exception,
    unchanged. With an empty provider list the user's callback is never
    called. *)
Theorem process_batch_raises_exactly self requests show_progress :
  (forall e,
     process_batch time_time engine self requests show_progress = Raise e <->
     (providers self = [] /\ e = IndexError) \/
     (exists args, engine_args self requests = Return args /\
                   returned (engine args) = Raise e)) /\
  (providers self = [] -> callback_calls engine self requests = []).
Proof.
  split.
  - intros e. unfold process_batch.
    destruct (engine_args self requests) as [args|e'] eqn:Hargs.
    + simpl mbind. unfold mbind, py_bind.
      destruct (returned (engine args)) as [ms|e''] eqn:Hret.
      * split.
        -- match goal with
           | |- context [fold_left ?f (providers self) ?a] =>
               destruct (fold_left f (providers self) a) as [d n]
           end.
           discriminate.
        -- intros [[Hnil _]|(args' & Ha & Hr)].
           ++ assert (engine_args self requests = Raise IndexError) as Habs
                by (apply (proj2 (engine_args_raises self requests IndexError)); auto).
              congruence.
           ++ congruence.
      * split.
        -- intros H. right. exists args. split; [reflexivity|]. congruence.
        -- intros [[Hnil _]|(args' & Ha & Hr)].
           ++ assert (engine_args self requests = Raise IndexError) as Habs
                by (apply (proj2 (engine_args_raises self requests IndexError)); auto).
              congruence.
           ++ injection Ha as <-. congruence.
    + simpl. split.
      * intros H. left. apply (proj1 (engine_args_raises self requests e)).
        rewrite Hargs. injection H as <-. reflexivity.
      * intros [[Hnil ->]|(args' & Ha & _)]; [|discriminate].
        destruct (proj1 (engine_args_raises _ _ _) Hargs) as [_ ->]. reflexivity.
  - intros Hnil. unfold callback_calls.
    rewrite (proj2 (engine_args_raises self requests IndexError)) by auto.
    reflexivity.
Qed.

(** X2: the overall totals of a returned result are what the engine
    reported through [update_progress], not what its metrics say:
    [prompt_tokens], [completion_tokens], [total_request_bytes] and
    [total_response_bytes] are the sums of the corresponding increments over
    the progress calls, [total_tokens] is the sum of the first two, and
    [metrics] and [total_requests] are the returned list and its length. *)
Theorem overall_totals_are_reported_increments self requests show_progress r :
  process_batch time_time engine self requests show_progress = Return r ->
  exists args ms,
    engine_args self requests = Return args /\
    returned (engine args) = Return ms /\
    BatchRequestResult.metrics r = ms /\
    BatchRequestResult.total_requests r = py_len ms /\
    BatchRequestResult.prompt_tokens r =
      py_sum new_prompt_tokens (progress_calls (engine args)) /\
    BatchRequestResult.completion_tokens r =
      py_sum new_completion_tokens (progress_calls (engine args)) /\
    BatchRequestResult.total_tokens r =
      BatchRequestResult.prompt_tokens r + BatchRequestResult.completion_tokens r /\
    BatchRequestResult.total_request_bytes r =
      py_sum new_request_bytes (progress_calls (engine args)) /\
    BatchRequestResult.total_response_bytes r =
      py_sum new_response_bytes (progress_calls (engine args)).
Proof.
  intros Hrun.
  destruct (process_batch_returns _ _ _ _ _ _ Hrun) as (args & ms & Hargs & Hret & Hr).
  exists args, ms. split; [exact Hargs|]. split; [exact Hret|].
  destruct (update_progress_fold self (progress_calls (engine args)) initial_locals)
    as (Hp & Hc & Hq & Hs & _ & Ht).
  cbv zeta in Hr, Hp, Hc, Hq, Hs, Ht. simpl in Hp, Hc, Hq, Hs.
  subst r. simpl.
  split; [reflexivity|]. split; [reflexivity|].
  split; [exact Hp|]. split; [exact Hc|].
  split; [apply Ht; reflexivity|].
  split; [exact Hq | exact Hs].
Qed.

(** X3: the user's callback is called once per progress call of the
    engine, in order, with that call's [completed] and [total]; without a
    callback, and when [self.providers[0]] raises, it is never called. The
    calls happen whether or not the engine raises afterwards. *)
Theorem callback_hears_every_progress_call self requests :
  callback_calls engine self requests =
  match engine_args self requests with
  | Return args =>
      if _progress_callback self
      then (fun c => (completed c, total c)) <$> progress_calls (engine args)
      else []
  | Raise _ => []
  end.
Proof.
  unfold callback_calls.
  destruct (engine_args self requests) as [args|e]; [|reflexivity].
  rewrite callback_log_fold. reflexivity.
Qed.

End Exceptions.

Lemma filter_ext_in {A : Type} (P Q : A -> Prop)
    `{!forall a, Decision (P a), !forall a, Decision (Q a)} (l : list A) :
  (forall a, a ∈ l -> P a <-> Q a) -> filter P l = filter Q l.
Proof.
  induction l as [|a l IH]; intros Hext; [reflexivity|].
  rewrite !filter_cons.
  assert (filter P l = filter Q l) as ->
    by (apply IH; intros b Hb; apply Hext, list_elem_of_further, Hb).
  pose proof (Hext a (list_elem_of_here _ _)) as Ha.
  destruct (decide (P a)), (decide (Q a)); tauto.
Qed.

Lemma length_filter_all {A : Type} (P : A -> Prop) `{!forall a, Decision (P a)} (l : list A) :
  length (filter P l) = length l <-> forall a, a ∈ l -> P a.
Proof.
  split; [|intros Hall; rewrite filter_all by exact Hall; reflexivity].
  induction l as [|a l IH]; intros Hlen b Hb; [inversion Hb|].
  rewrite filter_cons in Hlen.
  pose proof (length_filter P l) as Hle.
  destruct (decide (P a)) as [Ha|Ha]; simpl in Hlen; [|lia].
  apply elem_of_cons in Hb as [->|Hb]; [exact Ha|].
  apply IH; [lia | exact Hb].
Qed.

Lemma py_sum_at_least_len {A : Type} (f : A -> Z) (l : list A) :
  Forall (fun a => 1 <= f a) l -> py_len l <= py_sum f l.
Proof.
  unfold py_len. induction 1 as [|a l Ha _ IH]; [rewrite py_sum_nil; simpl; lia|].
  rewrite py_sum_cons. simpl length. lia.
Qed.

Lemma dict_sum_at_least_size {V : Type} (field : V -> Z) (d : gmap string V) :
  (forall k v, d !! k = Some v -> 1 <= field v) ->
  Z.of_nat (size d) <= dict_sum field d.
Proof.
  intros Hd. unfold dict_sum.
  rewrite <- length_map_to_list, <- (length_fmap snd).
  apply py_sum_at_least_len, Forall_forall. intros v Hv.
  apply list_elem_of_fmap in Hv as ([k v'] & -> & Hkv).
  apply elem_of_map_to_list in Hkv. eapply Hd, Hkv.
Qed.

Section Structure.

Import BatchProcessor.

Variable time_time : nat -> Q.
Variable engine : Engine.

Implicit Types (self : BatchProcessor.t) (requests : list Request).
Implicit Types (metrics : list RequestMetrics.t) (d : gmap string BatchRequestResult.t).

(** An entry of a returned result: the key of a configured provider, over
    the metrics carrying it, which are not empty. *)
Lemma breakdown_entry self requests show_progress r k v :
  process_batch time_time engine self requests show_progress = Return r ->
  BatchRequestResult.provider_metrics r !! k = Some v ->
  exists p now,
    p ∈ providers self /\ provider_key p = k /\
    metrics_of k (BatchRequestResult.metrics r) <> [] /\
    v = provider_result (metrics_of k (BatchRequestResult.metrics r)) now (time_time 0).
Proof.
  intros Hrun Hkv.
  destruct (process_batch_returns _ _ _ _ _ _ Hrun) as (args & ms & _ & _ & Hr).
  cbv zeta in Hr. subst r. simpl in *.
  apply loop_entry in Hkv as [Hkv|(p & now & Hp & Hk & Hne & Hv)].
  - rewrite lookup_empty in Hkv. discriminate.
  - exists p, now. auto.
Qed.

Lemma breakdown_covers_configured self requests show_progress r :
  process_batch time_time engine self requests show_progress = Return r ->
  covered (BatchRequestResult.metrics r) (BatchRequestResult.provider_metrics r) =
  filter (configured_key self) (BatchRequestResult.metrics r).
Proof.
  intros Hrun. unfold covered. apply filter_ext_in. intros m Hm.
  unfold configured_key. rewrite list_elem_of_fmap. split.
  - intros [v Hv].
    destruct (breakdown_entry _ _ _ _ _ _ Hrun Hv) as (p & now & Hp & Hk & _).
    exists p. auto.
  - intros (p & Hk & Hp).
    destruct (process_batch_returns _ _ _ _ _ _ Hrun) as (args & ms & _ & _ & Hr).
    cbv zeta in Hr. subst r. simpl in *.
    assert (metrics_of (provider_key p) ms <> []) as Hne.
    { intros He.
      assert (m ∈ metrics_of (provider_key p) ms) as Hin
        by (apply metrics_of_spec; auto).
      rewrite He in Hin. inversion Hin. }
    edestruct (loop_present time_time ms (time_time 0) p (providers self)) as [now Hnow];
      [exact Hp | exact Hne |].
    rewrite Hk, Hnow. eauto.
Qed.

Lemma breakdown_sums_covered self requests show_progress r field g :
  (forall l now, field (provider_result l now (time_time 0)) = py_sum g l) ->
  process_batch time_time engine self requests show_progress = Return r ->
  dict_sum field (BatchRequestResult.provider_metrics r) =
  py_sum g (filter (configured_key self) (BatchRequestResult.metrics r)).
Proof.
  intros Hfg Hrun.
  rewrite <- (breakdown_covers_configured _ _ _ _ Hrun).
  destruct (process_batch_returns _ _ _ _ _ _ Hrun) as (args & ms & _ & _ & Hr).
  cbv zeta in Hr. subst r. simpl.
  apply (loop_sums_its_metrics time_time ms (time_time 0) field g Hfg).
  apply sums_its_metrics_empty.
Qed.

(** X4: the entries of [provider_metrics] add up to the metrics that carry
    the key of a configured provider, and to nothing else: a metric whose
    [provider_name] is no configured provider's key is counted in the overall
    [total_requests] and in no entry. So the per-provider request counts sum
    to at most [total_requests], with equality exactly when every returned
    metric carries a configured key. *)
Theorem breakdown_sums_over_configured_keys self requests show_progress r :
  process_batch time_time engine self requests show_progress = Return r ->
  let breakdown := BatchRequestResult.provider_metrics r in
  let counted := filter (configured_key self) (BatchRequestResult.metrics r) in
  dict_sum BatchRequestResult.total_requests breakdown = py_len counted /\
  dict_sum BatchRequestResult.total_tokens breakdown =
    py_sum (fun m => RequestMetrics.prompt_tokens m + RequestMetrics.completion_tokens m)
           counted /\
  dict_sum BatchRequestResult.prompt_tokens breakdown =
    py_sum RequestMetrics.prompt_tokens counted /\
  dict_sum BatchRequestResult.completion_tokens breakdown =
    py_sum RequestMetrics.completion_tokens counted /\
  dict_sum BatchRequestResult.total_request_bytes breakdown =
    py_sum RequestMetrics.request_bytes counted /\
  dict_sum BatchRequestResult.total_response_bytes breakdown =
    py_sum RequestMetrics.response_bytes counted /\
  dict_sum BatchRequestResult.total_requests breakdown <=
    BatchRequestResult.total_requests r /\
  (dict_sum BatchRequestResult.total_requests breakdown =
     BatchRequestResult.total_requests r <->
   forall m, m ∈ BatchRequestResult.metrics r -> configured_key self m).
Proof.
  intros Hrun. cbv zeta.
  pose proof (fun field g Hfg =>
    breakdown_sums_covered self requests show_progress r field g Hfg Hrun) as Hsum.
  assert (dict_sum BatchRequestResult.total_requests
            (BatchRequestResult.provider_metrics r) =
          py_len (filter (configured_key self) (BatchRequestResult.metrics r))) as Hcount.
  { rewrite (Hsum _ (fun _ => 1)) by (intros; apply eq_sym, py_sum_ones).
    apply py_sum_ones. }
  assert (BatchRequestResult.total_requests r = py_len (BatchRequestResult.metrics r))
    as Htotal.
  { destruct (process_batch_returns _ _ _ _ _ _ Hrun) as (args & ms & _ & _ & ->).
    reflexivity. }
  split; [exact Hcount|].
  split; [apply Hsum; reflexivity|].
  split; [apply Hsum; reflexivity|].
  split; [apply Hsum; reflexivity|].
  split; [apply Hsum; reflexivity|].
  split; [apply Hsum; reflexivity|].
  rewrite Hcount, Htotal. unfold py_len.
  pose proof (length_filter (configured_key self) (BatchRequestResult.metrics r)) as Hle.
  split; [lia|].
  rewrite <- length_filter_all.
  split; [intros H; apply Nat2Z.inj, H | intros ->; reflexivity].
Qed.

(** X5: an entry of [provider_metrics] is never nested (its own
    [provider_metrics] is empty); its [metrics] are the returned metrics
    carrying its key, in the order they were returned; it counts at least one
    request; and its [total_tokens] is the sum of its [prompt_tokens] and
    [completion_tokens]. *)
Theorem entries_are_flat_subsequences self requests show_progress r k v :
  process_batch time_time engine self requests show_progress = Return r ->
  BatchRequestResult.provider_metrics r !! k = Some v ->
  BatchRequestResult.provider_metrics v = ∅ /\
  BatchRequestResult.metrics v `sublist_of` BatchRequestResult.metrics r /\
  (forall m, m ∈ BatchRequestResult.metrics v <->
             m ∈ BatchRequestResult.metrics r /\ RequestMetrics.provider_name m = k) /\
  BatchRequestResult.total_requests v = py_len (BatchRequestResult.metrics v) /\
  1 <= BatchRequestResult.total_requests v /\
  BatchRequestResult.total_tokens v =
    BatchRequestResult.prompt_tokens v + BatchRequestResult.completion_tokens v.
Proof.
  intros Hrun Hkv.
  destruct (breakdown_entry _ _ _ _ _ _ Hrun Hkv) as (p & now & _ & _ & Hne & ->).
  simpl.
  split; [reflexivity|].
  split; [apply sublist_filter|].
  split; [intros m; apply metrics_of_spec|].
  split; [reflexivity|].
  split.
  - unfold py_len.
    destruct (metrics_of k (BatchRequestResult.metrics r)); [contradiction|].
    simpl length. lia.
  - apply py_sum_plus.
Qed.

Lemma loop_size metrics start ps d n :
  (size (fold_left (provider_step time_time metrics start) ps (d, n)).1
   <= size d + length ps)%nat.
Proof.
  revert d n. induction ps as [|p ps IH]; intros d n; [simpl; lia|].
  rewrite fold_left_step.
  destruct (decide (metrics_of (provider_key p) metrics = [])) as [He|He].
  - rewrite provider_step_skip by exact He.
    specialize (IH d n). simpl length. lia.
  - rewrite provider_step_insert by exact He.
    etransitivity; [apply IH|].
    rewrite map_size_insert. simpl length.
    destruct (d !! provider_key p); unfold id; lia.
Qed.

(** X6: [provider_metrics] has at most one entry per configured provider
    and at most one per returned metric; when the engine returns no metrics
    it is empty. *)
Theorem breakdown_size_bounded self requests show_progress r :
  process_batch time_time engine self requests show_progress = Return r ->
  (size (BatchRequestResult.provider_metrics r) <= length (providers self))%nat /\
  (size (BatchRequestResult.provider_metrics r)
   <= length (BatchRequestResult.metrics r))%nat /\
  (BatchRequestResult.metrics r = [] -> BatchRequestResult.provider_metrics r = ∅).
Proof.
  intros Hrun.
  assert (size (BatchRequestResult.provider_metrics r)
          <= length (BatchRequestResult.metrics r))%nat as Hms.
  { pose proof (dict_sum_at_least_size BatchRequestResult.total_requests
                  (BatchRequestResult.provider_metrics r)) as Hsize.
    assert (dict_sum BatchRequestResult.total_requests
              (BatchRequestResult.provider_metrics r) =
            py_len (filter (configured_key self) (BatchRequestResult.metrics r)))
      as Hcount.
    { rewrite (breakdown_sums_covered self requests show_progress r _ (fun _ => 1))
        by (try exact Hrun; intros; apply eq_sym, py_sum_ones).
      apply py_sum_ones. }
    pose proof (length_filter (configured_key self) (BatchRequestResult.metrics r)) as Hle.
    unfold py_len in Hcount.
    lapply Hsize; [lia|].
    intros k v Hkv.
    destruct (breakdown_entry _ _ _ _ _ _ Hrun Hkv) as (p & now & _ & _ & Hne & ->).
    simpl. unfold py_len.
    destruct (metrics_of k (BatchRequestResult.metrics r)); [contradiction|].
    simpl length. lia. }
  split; [|split; [exact Hms|]].
  - destruct (process_batch_returns _ _ _ _ _ _ Hrun) as (args & ms & _ & _ & ->).
    simpl.
    etransitivity; [apply loop_size|]. rewrite map_size_empty. lia.
  - intros Hnil. rewrite Hnil in Hms. simpl in Hms.
    apply map_size_empty_inv. lia.
Qed.

End Structure.

Lemma Qminus_le_compat_r (a b c : Q) : (a <= b)%Q -> (a - c <= b - c)%Q.
Proof. intros H. unfold Qminus. apply Qplus_le_compat; [exact H | apply Qle_refl]. Qed.

Lemma Qminus_nonneg (a c : Q) : (c <= a)%Q -> (0 <= a - c)%Q.
Proof. intros H. unfold Qminus. apply (proj1 (Qle_minus_iff c a)), H. Qed.


Section Timing.

Import BatchProcessor.

Variable time_time : nat -> Q.
Variable engine : Engine.

Implicit Types (self : BatchProcessor.t) (requests : list Request).
Implicit Types (metrics : list RequestMetrics.t) (d : gmap string BatchRequestResult.t).

Lemma loop_reads metrics start ps d n :
  (n <= (fold_left (provider_step time_time metrics start) ps (d, n)).2)%nat.
Proof.
  revert d n. induction ps as [|p ps IH]; intros d n; [simpl; lia|].
  rewrite fold_left_step.
  destruct (decide (metrics_of (provider_key p) metrics = [])) as [He|He].
  - rewrite provider_step_skip by exact He. apply IH.
  - rewrite provider_step_insert by exact He.
    etransitivity; [|apply IH]. lia.
Qed.

(** The reading an entry was built with was taken during the loop. *)
Lemma loop_entry_reading metrics start k v ps d n :
  (fold_left (provider_step time_time metrics start) ps (d, n)).1 !! k = Some v ->
  d !! k = Some v \/
  exists i,
    (n <= i < (fold_left (provider_step time_time metrics start) ps (d, n)).2)%nat /\
    v = provider_result (metrics_of k metrics) (time_time i) start.
Proof.
  revert d n. induction ps as [|p ps IH]; intros d n; [left; assumption|].
  rewrite fold_left_step.
  destruct (decide (metrics_of (provider_key p) metrics = [])) as [He|He].
  - rewrite provider_step_skip by exact He. apply IH.
  - rewrite provider_step_insert by exact He. intros H.
    destruct (IH _ _ H) as [Hd|(i & Hi & Hv)].
    + destruct (decide (provider_key p = k)) as [<-|Hne].
      * rewrite lookup_insert_eq in Hd. injection Hd as <-.
        right. exists n. split; [|reflexivity].
        pose proof (loop_reads metrics start ps
          (<[provider_key p :=
               provider_result (metrics_of (provider_key p) metrics) (time_time n) start]> d)
          (S n)).
        lia.
      * rewrite lookup_insert_ne in Hd by exact Hne. left; assumption.
    + right. exists i. split; [lia | exact Hv].
Qed.

(** X7: when the clock does not go backwards, the [total_time] of a
    returned result is not negative, and the [total_time] of every
    per-provider entry lies between 0 and the overall [total_time]: an
    entry's elapsed time is read from the start of the batch to the moment
    the entry is built, before the overall one. *)
Theorem entry_times_within_batch_time self requests show_progress r :
  clock_monotone time_time ->
  process_batch time_time engine self requests show_progress = Return r ->
  (0 <= BatchRequestResult.total_time r)%Q /\
  forall k v, BatchRequestResult.provider_metrics r !! k = Some v ->
    (0 <= BatchRequestResult.total_time v)%Q /\
    (BatchRequestResult.total_time v <= BatchRequestResult.total_time r)%Q.
Proof.
  intros Hmono Hrun.
  destruct (process_batch_returns _ _ _ _ _ _ Hrun) as (args & ms & _ & _ & Hr).
  cbv zeta in Hr. subst r. simpl.
  split.
  - apply Qminus_nonneg, Hmono. lia.
  - intros k v Hkv.
    apply loop_entry_reading in Hkv as [Hkv|(i & Hi & ->)].
    + rewrite lookup_empty in Hkv. discriminate.
    + simpl. split.
      * apply Qminus_nonneg, Hmono. lia.
      * apply Qminus_le_compat_r, Hmono. lia.
Qed.



End Timing.

Lemma provider_tuples_keys (ps qs : list ProviderConfig) :
  BatchProcessor.provider_tuple <$> ps = BatchProcessor.provider_tuple <$> qs ->
  BatchProcessor.provider_key <$> ps = BatchProcessor.provider_key <$> qs.
Proof.
  revert qs. induction ps as [|p ps IH]; intros [|q qs] H; try discriminate; [reflexivity|].
  rewrite !fmap_cons in H. injection H as Hn _ Hu _ Hrest.
  rewrite !fmap_cons, (IH qs Hrest). unfold BatchProcessor.provider_key.
  rewrite Hn, Hu. reflexivity.
Qed.

Lemma provider_loop_keys (time_time : nat -> Q) (metrics : list RequestMetrics.t)
    (start : Q) (ps qs : list ProviderConfig) acc :
  BatchProcessor.provider_key <$> ps = BatchProcessor.provider_key <$> qs ->
  fold_left (BatchProcessor.provider_step time_time metrics start) ps acc =
  fold_left (BatchProcessor.provider_step time_time metrics start) qs acc.
Proof.
  revert qs acc. induction ps as [|p ps IH]; intros [|q qs] acc H;
    try discriminate; [reflexivity|].
  rewrite !fmap_cons in H. injection H as Hk Hrest.
  rewrite !fold_left_step, (IH qs _ Hrest). f_equal.
  unfold BatchProcessor.provider_step. destruct acc as [d n].
  rewrite Hk. reflexivity.
Qed.

Section Arguments.

Import BatchProcessor.

Variable time_time : nat -> Q.
Variable engine : Engine.

Implicit Types (self : BatchProcessor.t) (requests : list Request).

(** X9: the outcome of [process_batch] and the calls of the user's callback
    depend on the instance only through the arguments handed to the engine
    and through whether a callback was given. In particular [test_mode] and
    [tokens_per_minute] of every provider but the first are never read. *)
Theorem outcome_depends_on_engine_arguments self self' requests show_progress :
  engine_args self' requests = engine_args self requests ->
  _progress_callback self' = _progress_callback self ->
  process_batch time_time engine self' requests show_progress =
    process_batch time_time engine self requests show_progress /\
  callback_calls engine self' requests = callback_calls engine self requests.
Proof.
  intros Hargs Hcb.
  assert (forall st c, update_progress self' st c = update_progress self st c) as Hup
    by (intros st c; unfold update_progress; rewrite Hcb; reflexivity).
  split.
  - unfold process_batch.
    destruct (engine_args self requests) as [args|e] eqn:Ha;
      rewrite Hargs; [|reflexivity].
    destruct (engine_args_returns _ _ _ Hargs) as (first' & rest' & _ & Ha').
    destruct (engine_args_returns _ _ _ Ha) as (first & rest & _ & Ha'').
    rewrite Ha'' in Ha'. injection Ha' as Htuples _ _.
    simpl mbind. unfold mbind, py_bind.
    destruct (returned (engine args)) as [ms|e]; [|reflexivity].
    rewrite (fold_left_ext (update_progress self') (update_progress self)) by exact Hup.
    generalize (fold_left (update_progress self) (progress_calls (engine args))
                          initial_locals).
    intros st.
    rewrite (provider_loop_keys time_time ms (time_time 0%nat)
               (providers self') (providers self))
      by (apply provider_tuples_keys; symmetry; exact Htuples).
    reflexivity.
  - unfold callback_calls.
    destruct (engine_args self requests) as [args|e] eqn:Ha;
      rewrite Hargs; [|reflexivity].
    rewrite (fold_left_ext (update_progress self') (update_progress self)) by exact Hup.
    reflexivity.
Qed.

End Arguments.

(** *** Arrival order *)

Lemma provider_result_same_numbers (l1 l2 : list RequestMetrics.t) (now start : Q) :
  l1 ≡ₚ l2 ->
  same_numbers (BatchProcessor.provider_result l1 now start)
               (BatchProcessor.provider_result l2 now start).
Proof.
  intros Hperm. unfold same_numbers. simpl.
  rewrite !(py_sum_perm _ l1 l2 Hperm). unfold py_len.
  rewrite (Permutation_length Hperm).
  repeat split; try reflexivity. exact Hperm.
Qed.

Lemma metrics_of_perm (k : string) (ms1 ms2 : list RequestMetrics.t) :
  ms1 ≡ₚ ms2 -> BatchProcessor.metrics_of k ms1 ≡ₚ BatchProcessor.metrics_of k ms2.
Proof. intros H. unfold BatchProcessor.metrics_of. rewrite H. reflexivity. Qed.

Section ArrivalOrder.

Import BatchProcessor.

Variable time_time : nat -> Q.

Implicit Types (self : BatchProcessor.t) (requests : list Request).
Implicit Types (d : gmap string BatchRequestResult.t).

Lemma loop_same_numbers ms1 ms2 start ps d1 d2 n :
  ms1 ≡ₚ ms2 ->
  (forall k, option_Forall2 same_numbers (d1 !! k) (d2 !! k)) ->
  let l1 := fold_left (provider_step time_time ms1 start) ps (d1, n) in
  let l2 := fold_left (provider_step time_time ms2 start) ps (d2, n) in
  l1.2 = l2.2 /\
  forall k, option_Forall2 same_numbers (l1.1 !! k) (l2.1 !! k).
Proof.
  intros Hperm. cbv zeta. revert d1 d2 n.
  induction ps as [|p ps IH]; intros d1 d2 n Hd; [split; [reflexivity | exact Hd]|].
  rewrite !fold_left_step.
  pose proof (metrics_of_perm (provider_key p) ms1 ms2 Hperm) as Hp.
  destruct (decide (metrics_of (provider_key p) ms1 = [])) as [He|He].
  - assert (metrics_of (provider_key p) ms2 = []) as He2.
    { apply Permutation_nil_r. rewrite <- Hp, He. reflexivity. }
    rewrite !provider_step_skip by assumption. apply IH, Hd.
  - assert (metrics_of (provider_key p) ms2 <> []) as He2.
    { intros He2. apply He. apply Permutation_nil_r. rewrite Hp, He2. reflexivity. }
    rewrite !provider_step_insert by assumption. apply IH.
    intros k. destruct (decide (provider_key p = k)) as [<-|Hne].
    + rewrite !lookup_insert_eq. constructor.
      apply provider_result_same_numbers, Hp.
    + rewrite !lookup_insert_ne by exact Hne. apply Hd.
Qed.

(** X10: the aggregate does not depend on the order of arrival. If two
    engines return the same metrics and make the same progress calls, each
    up to order, the two results have the same overall numbers and, under
    every key, entries with the same numbers over the same metrics up to
    order (or no entry in both). *)
Theorem aggregate_insensitive_to_arrival_order
    (engine1 engine2 : Engine) self requests show_progress r1 r2 :
  process_batch time_time engine1 self requests show_progress = Return r1 ->
  process_batch time_time engine2 self requests show_progress = Return r2 ->
  BatchRequestResult.metrics r1 ≡ₚ BatchRequestResult.metrics r2 ->
  (forall args, engine_args self requests = Return args ->
                progress_calls (engine1 args) ≡ₚ progress_calls (engine2 args)) ->
  same_numbers r1 r2 /\
  forall k,
    option_Forall2 same_numbers
      (BatchRequestResult.provider_metrics r1 !! k)
      (BatchRequestResult.provider_metrics r2 !! k).
Proof.
  intros Hrun1 Hrun2 Hms Hcalls.
  destruct (process_batch_returns _ _ _ _ _ _ Hrun1) as (args & ms1 & Hargs & _ & Hr1).
  destruct (process_batch_returns _ _ _ _ _ _ Hrun2) as (args' & ms2 & Hargs' & _ & Hr2).
  assert (args' = args) as -> by congruence.
  specialize (Hcalls args Hargs).
  destruct (update_progress_fold self (progress_calls (engine1 args)) initial_locals)
    as (Hp1 & Hc1 & Hq1 & Hs1 & Hn1 & Ht1).
  destruct (update_progress_fold self (progress_calls (engine2 args)) initial_locals)
    as (Hp2 & Hc2 & Hq2 & Hs2 & Hn2 & Ht2).
  cbv zeta in Hr1, Hr2, Hp1, Hc1, Hq1, Hs1, Hn1, Ht1, Hp2, Hc2, Hq2, Hs2, Hn2, Ht2.
  set (st1 := fold_left (update_progress self) (progress_calls (engine1 args))
                        initial_locals) in *.
  set (st2 := fold_left (update_progress self) (progress_calls (engine2 args))
                        initial_locals) in *.
  assert (clock_reads st1 = clock_reads st2) as Hreads.
  { rewrite Hn1, Hn2, (Permutation_length Hcalls). reflexivity. }
  subst r1 r2. simpl in Hms.
  destruct (loop_same_numbers ms1 ms2 (time_time 0%nat) (providers self) ∅ ∅
              (clock_reads st1) Hms) as [Hl2 Hl1].
  { intros k. rewrite lookup_empty. constructor. }
  cbv zeta in Hl1, Hl2. rewrite <- Hreads.
  split; [|exact Hl1].
  unfold same_numbers. simpl.
  rewrite Hl2, (Ht1 eq_refl), (Ht2 eq_refl), Hp1, Hp2, Hc1, Hc2, Hq1, Hq2, Hs1, Hs2.
  rewrite !(py_sum_perm _ _ _ Hcalls). unfold py_len.
  rewrite (Permutation_length Hms).
  repeat split; try reflexivity. exact Hms.
Qed.

End ArrivalOrder.

(** ** The progress bar *)

Section ProgressBar.

Import BatchProcessor Progress.

Variable time_time : nat -> Q.

Implicit Types (self : BatchProcessor.t) (st : Locals) (calls : list ProgressCall).

Lemma progress_update_returns self st c :
  let st' := update_progress self st c in
  let elapsed := (time_time (clock_reads st) - time_time 0%nat)%Q in
  exists f,
    update time_time self st c = Return f /\
    task_completed f = completed c /\
    threads f = thread_count c /\
    ((0 < elapsed)%Q ->
       (prompt_rate f == inject_Z (prompt_tokens st') / elapsed)%Q /\
       (completion_rate f == inject_Z (completion_tokens st') / elapsed)%Q /\
       (uplink f ==
          inject_Z (total_request_bytes st' * 8) / (elapsed * inject_Z 1000000))%Q /\
       (downlink f ==
          inject_Z (total_response_bytes st' * 8) / (elapsed * inject_Z 1000000))%Q) /\
    (~ (0 < elapsed)%Q ->
       prompt_rate f = 0%Q /\ completion_rate f = 0%Q /\
       uplink f = 0%Q /\ downlink f = 0%Q).
Proof.
  cbv zeta. unfold update.
  destruct (py_gt0 (time_time (clock_reads st) - time_time 0%nat)) eqn:Hgt.
  - apply py_gt0_spec in Hgt.
    pose proof (time_nonzero _ Hgt) as Hnz.
    pose proof (scaled_time_nonzero _ Hgt) as Hsnz.
    rewrite !py_truediv_defined by assumption.
    eexists. split; [reflexivity|]. simpl.
    split; [reflexivity|]. split; [reflexivity|].
    split; [intros _; repeat split; reflexivity | intros Hn; contradiction].
  - assert (~ (0 < time_time (clock_reads st) - time_time 0%nat)%Q) as Hn
      by (rewrite <- py_gt0_spec; congruence).
    eexists. split; [reflexivity|]. simpl.
    split; [reflexivity|]. split; [reflexivity|].
    split; [intros Hp; contradiction | intros _; auto].
Qed.

Lemma log_lookup self calls st k c :
  calls !! k = Some c ->
  log time_time self st calls !! k =
  Some (update time_time self (fold_left (update_progress self) (take k calls) st) c).
Proof.
  revert st k. induction calls as [|c' calls IH]; intros st k Hk; [discriminate|].
  destruct k as [|k]; simpl in *.
  - injection Hk as ->. reflexivity.
  - apply IH, Hk.
Qed.

Lemma log_length self calls st : length (log time_time self st calls) = length calls.
Proof.
  revert st. induction calls as [|c calls IH]; intros st; [reflexivity|].
  simpl. rewrite IH. reflexivity.
Qed.

(** X11: at every call of [update_progress] the progress bar is updated
    without a division error. With the k-th call (counted from 0) it is
    given that call's [completed] and [thread_count], and as rates the
    totals accumulated over the calls so far divided by the time elapsed
    since the start of the batch (bytes as megabits per second), or four
    zeros when no time has elapsed. *)
Theorem progress_bar_shows_cumulative_rates self calls k c :
  calls !! k = Some c ->
  let seen := take (S k) calls in
  let elapsed := (time_time (S k) - time_time 0%nat)%Q in
  length (log time_time self initial_locals calls) = length calls /\
  exists f,
    log time_time self initial_locals calls !! k = Some (Return f) /\
    task_completed f = completed c /\
    threads f = thread_count c /\
    ((0 < elapsed)%Q ->
       (prompt_rate f == inject_Z (py_sum new_prompt_tokens seen) / elapsed)%Q /\
       (completion_rate f == inject_Z (py_sum new_completion_tokens seen) / elapsed)%Q /\
       (uplink f ==
          inject_Z (py_sum new_request_bytes seen * 8) / (elapsed * inject_Z 1000000))%Q /\
       (downlink f ==
          inject_Z (py_sum new_response_bytes seen * 8)
          / (elapsed * inject_Z 1000000))%Q) /\
    (~ (0 < elapsed)%Q ->
       prompt_rate f = 0%Q /\ completion_rate f = 0%Q /\
       uplink f = 0%Q /\ downlink f = 0%Q).
Proof.
  intros Hk. cbv zeta. split; [apply log_length|].
  rewrite (log_lookup self calls initial_locals k c Hk).
  set (st := fold_left (update_progress self) (take k calls) initial_locals).
  destruct (update_progress_fold self (take k calls) initial_locals)
    as (Hp & Hc & Hq & Hs & Hn & _).
  cbv zeta in Hp, Hc, Hq, Hs, Hn. fold st in Hp, Hc, Hq, Hs, Hn.
  simpl in Hp, Hc, Hq, Hs, Hn.
  assert (length (take k calls) = k) as Hlen.
  { rewrite length_take. apply lookup_lt_Some in Hk. lia. }
  rewrite Hlen in Hn.
  destruct (progress_update_returns self st c) as (f & Hf & Hcompleted & Hthreads & Hpos & Hzero).
  cbv zeta in Hpos, Hzero. rewrite Hn in Hpos, Hzero.
  exists f. split; [rewrite Hf; reflexivity|].
  split; [exact Hcompleted|]. split; [exact Hthreads|].
  rewrite (take_S_r calls k c Hk), !py_sum_app, !py_sum_cons, !py_sum_nil.
  split; [|exact Hzero].
  intros He. specialize (Hpos He). simpl in Hpos.
  rewrite Hp, Hc, Hq, Hs in Hpos.
  rewrite !Z.add_0_r. exact Hpos.
Qed.

End ProgressBar.

(** ** The demo harness *)

Section DemoHarness.

Import Demo.

Lemma random_choice_returns {A : Type} (seq : list A) (r : nat) :
  seq <> [] -> exists x, x ∈ seq /\ random_choice seq r = Return x.
Proof.
  intros Hne. unfold random_choice, py_getitem.
  assert ((r mod length seq)%nat < length seq)%nat as Hlt.
  { apply Nat.mod_upper_bound. destruct seq; [contradiction | discriminate]. }
  destruct (lookup_lt_is_Some_2 _ _ Hlt) as [x Hx]. rewrite Hx.
  exists x. split; [eapply list_elem_of_lookup_2, Hx | reflexivity].
Qed.

Lemma random_choice_reaches {A : Type} (seq : list A) (x : A) :
  x ∈ seq -> exists r, random_choice seq r = Return x.
Proof.
  intros Hx. apply list_elem_of_lookup in Hx as [i Hi].
  exists i. unfold random_choice, py_getitem.
  rewrite Nat.mod_small by (eapply lookup_lt_Some, Hi).
  rewrite Hi. reflexivity.
Qed.

Lemma create_demo_messages_in_all (r1 r2 : nat) :
  create_demo_messages r1 r2 ∈ all_requests.
Proof.
  unfold create_demo_messages.
  destruct (random_choice_returns questions r1) as (q & Hq & ->); [discriminate|].
  destruct (random_choice_returns variations r2) as (v & Hv & ->); [discriminate|].
  simpl mbind. unfold all_requests.
  apply list_elem_of_bind. exists q. split; [|exact Hq].
  apply list_elem_of_bind. exists v. split; [|exact Hv].
  apply list_elem_of_here.
Qed.

(** X12: [create_demo_messages] never raises and always returns two
    messages: the fixed system message, then a user message whose content is
    one of the five variations, a space and one of the five questions; each
    of these 25 requests is returned for some draws, and they are pairwise
    distinct. *)
Theorem create_demo_messages_shape :
  (forall r1 r2,
     exists q v,
       q ∈ questions /\ v ∈ variations /\
       create_demo_messages r1 r2 =
       Return [ system_message; user_message (v +:+ " " +:+ q) ]) /\
  (forall q v,
     q ∈ questions -> v ∈ variations ->
     exists r1 r2,
       create_demo_messages r1 r2 =
       Return [ system_message; user_message (v +:+ " " +:+ q) ]) /\
  NoDup all_requests /\ length all_requests = 25%nat.
Proof.
  split; [|split; [|split]].
  - intros r1 r2. unfold create_demo_messages.
    destruct (random_choice_returns questions r1) as (q & Hq & ->); [discriminate|].
    destruct (random_choice_returns variations r2) as (v & Hv & ->); [discriminate|].
    exists q, v. auto.
  - intros q v Hq Hv.
    destruct (random_choice_reaches questions q Hq) as [r1 Hr1].
    destruct (random_choice_reaches variations v Hv) as [r2 Hr2].
    exists r1, r2. unfold create_demo_messages. rewrite Hr1, Hr2. reflexivity.
  - unfold all_requests, Request, Message.
    apply (bool_decide_unpack _). vm_compute. exact I.
  - reflexivity.
Qed.

(** X13: the requests the harness generates are not unique once there are
    more than 25 of them: whatever the draws, a list of more than 25
    generated requests (the harness makes 1000) contains a request twice. *)
Theorem demo_requests_repeat (draws : list (nat * nat)) :
  (25 < length draws)%nat -> ~ NoDup (demo_requests draws).
Proof.
  intros Hlen Hnodup.
  assert (demo_requests draws ⊆+ all_requests) as Hsub.
  { apply NoDup_submseteq; [exact Hnodup|].
    intros x Hx. unfold demo_requests in Hx.
    apply list_elem_of_fmap in Hx as ([r1 r2] & -> & _).
    apply create_demo_messages_in_all. }
  apply submseteq_length in Hsub.
  unfold demo_requests in Hsub. rewrite length_fmap in Hsub.
  change (length all_requests) with 25%nat in Hsub. lia.
Qed.

End DemoHarness.

(** ** The further properties at concrete batches *)

Lemma examples_clock_monotone : clock_monotone Examples.clock.
Proof.
  intros i j Hij. unfold Examples.clock, Qdiv.
  apply Qmult_le_compat_r; [|discriminate].
  rewrite <- Zle_Qle. lia.
Qed.

Section FurtherInstances.

Import BatchProcessor Examples.

Local Abbreviation engine := (Native.process_requests_multi world).

(** The engine reports 1 prompt and 2 completion tokens while its metrics
    carry 8 and 14: the overall totals are the reported ones. *)
Lemma stray_engine_totals :
  exists r,
    process_batch clock stray_engine two_ports three_requests false = Return r /\
    BatchRequestResult.prompt_tokens r = 1 /\
    BatchRequestResult.total_tokens r = 3 /\
    BatchRequestResult.total_requests r = 2.
Proof.
  eexists. split; [reflexivity|].
  destruct (overall_totals_are_reported_increments clock stray_engine two_ports
              three_requests false _ eq_refl)
    as (args & ms & _ & Hret & _ & Hn & Hp & Hc & Ht & _).
  injection Hret as <-.
  split; [exact Hp|]. split; [rewrite Ht, Hp, Hc; reflexivity | exact Hn].
Defined.

(** One of the two metrics carries a stray key: the entries count one
    request, the result two. *)
Lemma stray_engine_breakdown :
  exists r,
    process_batch clock stray_engine two_ports three_requests false = Return r /\
    dict_sum BatchRequestResult.total_requests (BatchRequestResult.provider_metrics r) = 1 /\
    BatchRequestResult.total_requests r = 2.
Proof.
  eexists. split; [reflexivity|].
  destruct (breakdown_sums_over_configured_keys clock stray_engine two_ports
              three_requests false _ eq_refl) as (Hcount & _).
  split; [exact Hcount | reflexivity].
Defined.

Lemma port_8080_entry_is_flat :
  exists r v,
    process_batch clock engine two_ports three_requests false = Return r /\
    BatchRequestResult.provider_metrics r !! "openai:http://h:8080" = Some v /\
    BatchRequestResult.provider_metrics v = ∅ /\
    BatchRequestResult.total_requests v = 2.
Proof.
  eexists _, _. split; [reflexivity|]. split; [vm_compute; reflexivity|].
  destruct (entries_are_flat_subsequences clock engine two_ports three_requests false
              _ "openai:http://h:8080" _ eq_refl eq_refl) as (Hflat & _ & _ & Hn & _).
  split; [exact Hflat | exact Hn].
Defined.

Lemma two_ports_breakdown_size :
  exists r,
    process_batch clock engine two_ports three_requests false = Return r /\
    (size (BatchRequestResult.provider_metrics r) <= 2)%nat.
Proof.
  eexists. split; [reflexivity|].
  destruct (breakdown_size_bounded clock engine two_ports three_requests false
              _ eq_refl) as (Hsize & _).
  exact Hsize.
Defined.

Lemma two_ports_entry_times :
  exists r,
    process_batch clock engine two_ports three_requests false = Return r /\
    (0 <= BatchRequestResult.total_time r)%Q.
Proof.
  eexists. split; [reflexivity|].
  destruct (entry_times_within_batch_time clock engine two_ports three_requests false
              _ examples_clock_monotone eq_refl) as (Hpos & _).
  exact Hpos.
Defined.


(** Another mode and another limit on the second provider change nothing. *)
Lemma mixed_modes_change_nothing :
  process_batch clock engine two_ports_mixed three_requests false =
  process_batch clock engine two_ports three_requests false.
Proof.
  destruct (outcome_depends_on_engine_arguments clock engine two_ports two_ports_mixed
              three_requests false eq_refl eq_refl) as (Hrun & _).
  exact Hrun.
Defined.

Lemma early_and_late_agree :
  exists r1 r2,
    process_batch clock early_engine two_ports three_requests false = Return r1 /\
    process_batch clock late_engine two_ports three_requests false = Return r2 /\
    same_numbers r1 r2.
Proof.
  eexists _, _. split; [reflexivity|]. split; [reflexivity|].
  destruct (aggregate_insensitive_to_arrival_order clock early_engine late_engine
              two_ports three_requests false _ _ eq_refl eq_refl) as (Hsame & _).
  - apply perm_swap.
  - intros args _. apply perm_swap.
  - exact Hsame.
Defined.

Lemma second_report_on_the_bar :
  exists f,
    Progress.log clock two_ports initial_locals [report 1 3 7; report 2 5 7] !! 1%nat =
      Some (Return f) /\
    Progress.task_completed f = 2 /\
    (Progress.prompt_rate f == 16)%Q.
Proof.
  destruct (progress_bar_shows_cumulative_rates clock two_ports
              [report 1 3 7; report 2 5 7] 1 (report 2 5 7) eq_refl)
    as (_ & f & Hf & Hcompleted & _ & Hpos & _).
  exists f. split; [exact Hf|]. split; [exact Hcompleted|].
  destruct Hpos as (Hrate & _); [reflexivity|].
  rewrite Hrate. reflexivity.
Defined.

Lemma thousand_demo_requests_repeat : ~ NoDup (Demo.demo_requests thousand_draws).
Proof.
  apply demo_requests_repeat.
  unfold thousand_draws. rewrite length_fmap, length_seq. lia.
Defined.

End FurtherInstances.
